(** * stock-trade-by-z: selection runner, configuration handling, kline
      validation and code conversion, embedded from the Python sources

    The development follows the layout of the repository:
    - [Py]          the Python values the code manipulates (objects produced
                    by [json.load], exceptions, pandas timestamps);
    - [Select]      [stocktradebyz/select.py]: [instantiate_selector],
                    [_to_ts_code], [get_stock_basic_info] and [main];
    - [FetchKline]  [fetch_kline.py]: [_to_ts_code] and [validate];
    - [Indicator]   the RSV indicator of the (absent) selector module.

    All definitions come first; the theorems follow in the second half. *)

From Stdlib Require Import ZArith QArith Qminmax Lqa Lia List String Ascii.
From stdpp Require Import base option list sorting strings gmap.

Close Scope Q_scope.
Open Scope string_scope.

(* ===================================================================== *)
(** ** Python values *)
(* ===================================================================== *)

Module Py.

(** Objects that [json.load] can produce (the [Any] of [Dict[str, Any]]).
    A nested object keeps its members as an association list. *)
#[warnings="-register-all"]
Inductive value : Type :=
| VNone
| VBool (b : bool)
| VInt (n : Z)
| VFloat (q : Q)
| VStr (s : string)
| VList (l : list value)
| VDict (d : list (string * value)).

(** Python truth value testing, as used by [if not cls_name]. *)
Definition truthy (v : value) : bool :=
  match v with
  | VNone => false
  | VBool b => b
  | VInt n => negb (n =? 0)%Z
  | VFloat q => negb (Qnum q =? 0)%Z
  | VStr s => negb (String.eqb s "")
  | VList l => match l with [] => false | _ :: _ => true end
  | VDict d => match d with [] => false | _ :: _ => true end
  end.

(** [v is False]: identity with the singleton [False]. *)
Definition is_False (v : value) : bool :=
  match v with
  | VBool false => true
  | _ => false
  end.

(** The exceptions the modelled code raises and intercepts, all of them
    subclasses of [Exception]; each carries [str(e)]. *)
Inductive exn : Type :=
| ValueError (msg : string)
| ImportError (msg : string)
| TypeError (msg : string)
| OtherError (kind msg : string).

Definition str_exn (e : exn) : string :=
  match e with
  | ValueError m | ImportError m | TypeError m => m
  | OtherError _ m => m
  end.

(** Text is held as its UTF-8 bytes, while [len] and slices count
    characters: a byte [10xxxxxx] continues the character begun before
    it. *)
Definition is_continuation (c : ascii) : bool :=
  ((128 <=? nat_of_ascii c) && (nat_of_ascii c <? 192))%nat.

(** [len(s)]. *)
Fixpoint len (s : string) : nat :=
  match s with
  | EmptyString => O
  | String c rest => if is_continuation c then len rest else S (len rest)
  end.

(** [s[:n]]: the first [n] characters, each with all its bytes. *)
Fixpoint slice_to (n : nat) (s : string) : string :=
  match s with
  | EmptyString => EmptyString
  | String c rest =>
      if is_continuation c then String c (slice_to n rest)
      else
        match n with
        | O => EmptyString
        | S k => String c (slice_to k rest)
        end
  end.

(** Texts produced by the interpreter rather than by the code at hand:
    [str] of an object that is not a string, the message of the
    [TypeError] that [getattr] raises for an attribute name that is not a
    string, and the message of the [TypeError] raised when the argument
    after [**] is not a mapping. *)
Class Interpreter : Type := {
  str_object : value -> string;
  getattr_name_error : value -> string;
  kwargs_error : value -> string
}.

(** [str(v)], as f-strings apply it. *)
Definition str_value `{Interpreter} (v : value) : string :=
  match v with
  | VStr s => s
  | _ => str_object v
  end.

(** How a program ends when it does not run to completion: [sys.exit] or
    an exception that nothing intercepts. *)
Inductive termination : Type :=
| Exit (code : Z)
| Uncaught (e : exn).

(** A pandas [Timestamp]; [NaT] is the missing value. Valid timestamps are
    integers (nanoseconds since the epoch). *)
Inductive Timestamp : Type :=
| NaT
| TS (t : Z).

(** [a > b] on timestamps: every comparison with [NaT] is [False]. *)
Definition ts_gt (a b : Timestamp) : bool :=
  match a, b with
  | TS x, TS y => (y <? x)%Z
  | _, _ => false
  end.

Definition isna (a : Timestamp) : bool :=
  match a with NaT => true | TS _ => false end.

(** One row of a kline [DataFrame]: the [date] column and the numeric
    columns ([None] is NaN). *)
Record row : Type := Row {
  date : Timestamp;
  open : option Q;
  close : option Q;
  high : option Q;
  low : option Q;
  volume : option Q
}.

Definition DataFrame : Type := list row.

(** The dates of a frame that are not missing. *)
Definition valid_dates (df : DataFrame) : list Z :=
  omap (fun r => match date r with TS t => Some t | NaT => None end) df.

(** The maximum of a column of timestamps, that is of the [date] column of
    a frame that has rows: the largest non-missing entry, [NaT] when there
    is none ([skipna=True]). *)
Definition date_max (df : DataFrame) : Timestamp :=
  match valid_dates df with
  | [] => NaT
  | t :: ts => TS (fold_left Z.max ts t)
  end.

(** What [df["date"].max()] can be: a timestamp ([NaT] included), or the
    float nan. *)
Inductive scalar : Type :=
| Stamp (t : Timestamp)
| FloatNaN.

(** [df["date"].max()]. The [date] column of a frame without rows (a file
    with a header only) holds no timestamps, and its maximum is the float
    nan. *)
Definition series_max (df : DataFrame) : scalar :=
  match df with
  | [] => FloatNaN
  | _ :: _ => Stamp (date_max df)
  end.

Definition type_name (x : scalar) : string :=
  match x with
  | Stamp NaT => "NaTType"
  | Stamp (TS _) => "Timestamp"
  | FloatNaN => "float"
  end.

(** [item > cur] as the builtin [max] evaluates it: between timestamps it
    is [ts_gt], nan is not greater than nan, and a timestamp cannot be
    compared with a float. *)
Definition scalar_gt (item cur : scalar) : exn + bool :=
  match item, cur with
  | Stamp a, Stamp b => inr (ts_gt a b)
  | FloatNaN, FloatNaN => inr false
  | _, _ =>
      inl (TypeError ("'>' not supported between instances of '"
                      ++ type_name item ++ "' and '" ++ type_name cur ++ "'"))
  end.

(** The builtin [max] over a non-empty iterable: the running maximum
    [cur] is replaced only when [item > cur] holds; an exception of the
    comparison ends it. *)
Fixpoint builtin_max (cur : scalar) (rest : list scalar) : exn + scalar :=
  match rest with
  | [] => inr cur
  | item :: rest =>
      match scalar_gt item cur with
      | inl e => inl e
      | inr true => builtin_max item rest
      | inr false => builtin_max cur rest
      end
  end.

(** A Python [float] as far as comparisons go: a rational, an infinity or
    NaN. Every comparison with NaN is [False]. *)
Inductive float : Type :=
| Finite (q : Q)
| PosInf
| NegInf
| NaN.

(** [a <= b] on floats. *)
Definition float_le (a b : float) : bool :=
  match a, b with
  | NaN, _ | _, NaN => false
  | NegInf, _ => true
  | _, PosInf => true
  | Finite x, Finite y => Qle_bool x y
  | _, _ => false
  end.

(** The elements of [l] whose key was not met before, in order: the first
    occurrence of every key is kept ([dict.fromkeys],
    [Index.duplicated(keep="first")]). [seen] holds the keys passed. *)
Fixpoint first_occurrences {A K : Type} `{EqDecision K} (key : A -> K)
    (seen : list K) (l : list A) : list A :=
  match l with
  | [] => []
  | x :: rest =>
      if bool_decide (key x ∈ seen)
      then first_occurrences key seen rest
      else x :: first_occurrences key (key x :: seen) rest
  end.

(** Lookup in a [dict] kept as an association list with pairwise different
    keys. *)
Definition dict_get {V : Type} (d : list (string * V)) (k : string) : option V :=
  match find (fun kv => String.eqb (fst kv) k) d with
  | Some kv => Some (snd kv)
  | None => None
  end.

(** [d[k] = v]: the value of an existing key is replaced in place, a new
    key is appended. *)
Definition dict_set {V : Type} (d : list (string * V)) (k : string) (v : V)
  : list (string * V) :=
  if existsb (fun kv => String.eqb (fst kv) k) d
  then map (fun kv => if String.eqb (fst kv) k then (fst kv, v) else kv) d
  else d ++ [(k, v)].

End Py.

(* ===================================================================== *)
(** ** stocktradebyz/config/utils.py *)
(* ===================================================================== *)

Module ConfigUtils.
Import Py.

(** The files read with [json.load]: a path (kept as a string) is mapped
    to what [json.load] returns for the file there, or to the exception it
    raises; [None] when no file exists at the path. *)
Definition JsonFiles : Type := string -> option (exn + value).

(** [Path(__file__).parent / filename]; [package_dir] is the directory of
    the module. *)
Definition get_default_config_path (package_dir filename : string) : string :=
  package_dir ++ "/" ++ filename.

Definition load_config (package_dir : string) (fs : JsonFiles)
    (config_path : option string) : exn + value :=
  let config_path :=
    match config_path with
    | None => get_default_config_path package_dir "configs.json"
    | Some path => path
    end in
  match fs config_path with
  | None =>
      inl (OtherError "FileNotFoundError"
             ("配置文件 " ++ config_path ++ " 不存在"))
  | Some (inl e) => inl e
  | Some (inr cfg_raw) =>
      let cfgs :=
        match cfg_raw with
        | VList _ => cfg_raw
        | VDict d =>
            match dict_get d "selectors" with
            | Some selectors => selectors
            | None => VList [cfg_raw]
            end
        | _ => VList [cfg_raw]
        end in
      if negb (truthy cfgs)
      then inl (ValueError (config_path ++ " 未定义任何 Selector"))
      else inr cfgs
  end.

End ConfigUtils.

(* ===================================================================== *)
(** ** stocktradebyz/select.py *)
(* ===================================================================== *)

Module Select.
Import Py.

(** The universe handed to the selectors: [Dict[str, DataFrame]], in
    insertion order. *)
Definition Universe : Type := list (string * DataFrame).

(** The module [stocktradebyz.selector] is not part of the sources at hand;
    it is taken as a parameter. [selector_module] is the result of
    [importlib.import_module] ([None]: [ModuleNotFoundError]) and maps an
    attribute name to the callable found there ([None]: [AttributeError]);
    calling it with keyword arguments returns an object or raises.
    [select] is the method [selector.select(trade_date, data)]; by the
    selector contract it excludes instruments silently and does not raise. *)
Class SelectorModule : Type := {
  selector : Type;
  selector_module :
    option (string -> option (list (string * value) -> exn + selector));
  select : selector -> Timestamp -> Universe -> list string
}.

(** [cfg.get(key, default)] on a [Dict[str, Any]]. *)
Definition get (cfg : gmap string value) (key : string) (dflt : value) : value :=
  default dflt (cfg !! key).

Section Instantiate.
Context {SM : SelectorModule} {PI : Interpreter}.

(** The [try] block of [instantiate_selector]: import the module, then
    fetch the attribute; [ModuleNotFoundError] and [AttributeError] are
    re-raised as [ImportError] naming the class, while the [TypeError] that
    [getattr] raises for a name that is not a string is not intercepted. *)
Definition load_class (cls_name : value)
  : exn + (string * (list (string * value) -> exn + selector)) :=
  match selector_module with
  | None =>
      inl (ImportError ("无法加载 stocktradebyz.selector."
                        ++ str_value cls_name ++ ": "
                        ++ "No module named 'stocktradebyz.selector'"))
  | Some getattr =>
      match cls_name with
      | VStr name =>
          match getattr name with
          | None =>
              inl (ImportError ("无法加载 stocktradebyz.selector." ++ name ++ ": "
                                ++ "module 'stocktradebyz.selector' has no attribute '"
                                ++ name ++ "'"))
          | Some cls => inr (name, cls)
          end
      | _ => inl (TypeError (getattr_name_error cls_name))
      end
  end.

Definition instantiate_selector (cfg : gmap string value)
  : exn + (value * selector) :=
  let cls_name := get cfg "class" VNone in
  if negb (truthy cls_name) then inl (ValueError "缺少 class 字段")
  else
    match load_class cls_name with
    | inl e => inl e
    | inr (_, cls) =>
        match get cfg "params" (VDict []) with
        | VDict params =>
            match cls params with
            | inl e => inl e
            | inr sel => inr (get cfg "alias" cls_name, sel)
            end
        | other => inl (TypeError (kwargs_error other))
        end
    end.

End Instantiate.

(** [str.zfill(width)]: pad with ['0'] on the left up to [width]
    characters; a leading sign stays in front of the padding. Instrument
    codes are ASCII text, whose characters are its bytes, and the width is
    counted on them with [String.length]. *)
Definition zeros (n : nat) : string :=
  string_of_list_ascii (repeat "0"%char n).

Definition zfill (s : string) (width : nat) : string :=
  let fill := (width - String.length s)%nat in
  match fill with
  | O => s
  | _ =>
      match s with
      | String c rest =>
          if (Ascii.eqb c "+" || Ascii.eqb c "-")%bool
          then String c (zeros fill ++ rest)
          else zeros fill ++ s
      | EmptyString => zeros fill
      end
  end.

(** [code.startswith(("60", "68", "9"))]. *)
Definition startswith_any (s : string) (prefixes : list string) : bool :=
  existsb (fun p => String.prefix p s) prefixes.

Definition _to_ts_code (code : string) : string :=
  if startswith_any code ["60"; "68"; "9"]
  then zfill code 6 ++ ".SH"
  else zfill code 6 ++ ".SZ".

(** *** Module-level state of select.py

    [ts_token] and [pro = ts.pro_api()] are module globals. The functions
    that read them take the record of globals as their first argument; the
    remaining arguments are the parameters of the Python function. *)

Record basic_row : Type := BasicRow {
  name : string;
  industry : string;
  area : string;
  list_date : string
}.

(** Numeric and text cells are kept as printed; [None] is NaN or None. *)
Record daily_row : Type := DailyRow {
  pe : option string;
  pb : option string;
  ps : option string;
  total_mv : option string
}.

Record company_row : Type := CompanyRow {
  chairman : option string;
  manager : option string;
  reg_capital : option string;
  employees : option string;
  main_business : option string;
  introduction : option string
}.

(** The three queries of the Tushare client; each returns the first row of
    the answer ([None] for an empty frame) or raises. *)
Record pro_api : Type := ProApi {
  stock_basic : string -> exn + option basic_row;
  daily_basic : string -> exn + option daily_row;
  stock_company : string -> exn + option company_row
}.

Record globals : Type := Globals {
  ts_token : string;
  pro : pro_api
}.

Inductive level : Type := INFO | WARNING | ERROR.

(** What the logger receives. [LogPicks] stands for the block of
    [logger.info] calls that reports one selector's result (alias, trade
    date, number of picks, the picks). *)
Inductive log_record : Type :=
| Log (lvl : level) (msg : string)
| LogDefaultDate (trade_date : Timestamp)
| LogSkip (cfg : gmap string value) (e : exn)
| LogPicks (alias : value) (trade_date : Timestamp) (picks : list string).

Definition or_NA (cell : option string) : string :=
  match cell with Some s => s | None => "N/A" end.

Definition dashes (n : nat) : string :=
  string_of_list_ascii (repeat "-"%char n).

Definition basic_lines (code : string) (r : basic_row) : list log_record :=
  [ Log INFO ("股票代码: " ++ code ++ " (" ++ name r ++ ")");
    Log INFO ("所属行业: " ++ industry r);
    Log INFO ("所属地区: " ++ area r);
    Log INFO ("上市日期: " ++ list_date r) ].

Definition daily_lines (r : daily_row) : list log_record :=
  [ Log INFO ("市盈率(PE): " ++ or_NA (pe r));
    Log INFO ("市净率(PB): " ++ or_NA (pb r));
    Log INFO ("市销率(PS): " ++ or_NA (ps r));
    Log INFO ("总市值(万元): " ++ or_NA (total_mv r)) ].

Definition main_business_text (cell : option string) : string :=
  match cell with
  | Some s =>
      if (100 <? len s)%nat then slice_to 100 s ++ "..." else s
  | None => "N/A"
  end.

Definition introduction_line (cell : option string) : log_record :=
  match cell with
  | Some (String _ _ as s) =>
      Log INFO ("公司简介: " ++
                (if (200 <? len s)%nat
                 then slice_to 200 s ++ "..." else s))
  | _ => Log INFO "公司简介: N/A"
  end.

Definition company_lines (r : company_row) : list log_record :=
  [ Log INFO ("董事长: " ++ or_NA (chairman r));
    Log INFO ("总经理: " ++ or_NA (manager r));
    Log INFO ("注册资本: " ++ or_NA (reg_capital r));
    Log INFO ("员工人数: " ++ or_NA (employees r));
    Log INFO ("主营业务: " ++ main_business_text (main_business r));
    introduction_line (introduction r) ].

Definition when_row {A : Type} (o : option A) (f : A -> list log_record)
  : list log_record :=
  match o with Some r => f r | None => [] end.

Definition failed (code : string) (e : exn) : list log_record :=
  [ Log WARNING ("获取股票 " ++ code ++ " 基本信息失败: " ++ str_exn e) ].

(** The body of the [for code in picks] loop: the three queries are made
    before anything is logged; an exception in any of them is logged as a
    warning and the loop goes on with the next code. *)
Definition basic_info_of (g : globals) (code : string) : list log_record :=
  let ts_code := _to_ts_code code in
  match stock_basic (pro g) ts_code with
  | inl e => failed code e
  | inr basic_info =>
      match daily_basic (pro g) ts_code with
      | inl e => failed code e
      | inr daily =>
          match stock_company (pro g) ts_code with
          | inl e => failed code e
          | inr company_info =>
              when_row basic_info (basic_lines code)
              ++ when_row daily daily_lines
              ++ when_row company_info company_lines
              ++ [ Log INFO (dashes 50) ]
          end
      end
  end.

Definition get_stock_basic_info (g : globals) (picks : list string)
  : list log_record :=
  match picks with
  | [] => []
  | _ :: _ =>
      Log INFO ""
      :: Log INFO "============== 股票基本信息 =============="
      :: flat_map (basic_info_of g) picks
  end.

Section Main.
Context {SM : SelectorModule} {PI : Interpreter}.

(** [pd.to_datetime] on the [--date] argument. *)
Variable to_datetime : string -> exn + Timestamp.

(** [cfg.get("activate", True) is False]. *)
Definition deactivated (cfg : gmap string value) : bool :=
  is_False (get cfg "activate" (VBool true)).

(** [max(df["date"].max() for df in data.values())] on a non-empty
    universe. *)
Definition latest_date (first : DataFrame) (rest : list DataFrame)
  : exn + scalar :=
  builtin_max (series_max first) (map series_max rest).

(** One round of the loop over [selector_cfgs]. *)
Definition run_cfg (g : globals) (trade_date : Timestamp) (data : Universe)
    (cfg : gmap string value) : list log_record :=
  if deactivated cfg then []
  else
    match instantiate_selector cfg with
    | inl e => [ LogSkip cfg e ]
    | inr (alias, sel) =>
        let picks := select sel trade_date data in
        LogPicks alias trade_date picks :: get_stock_basic_info g picks
    end.

Definition run_selectors (g : globals) (trade_date : Timestamp)
    (data : Universe) (selector_cfgs : list (gmap string value))
  : list log_record :=
  flat_map (run_cfg g trade_date data) selector_cfgs.

(** [main] from the point where the universe [data] has been loaded;
    [args_date] is [args.date] and [selector_cfgs] what [load_config]
    returns. The result is the sequence of log records, or the way the
    process ends early. *)
Definition main (g : globals) (args_date : option string) (data : Universe)
    (selector_cfgs : list (gmap string value))
  : termination + list log_record :=
  match data with
  | [] => inl (Exit 1)
  | (_, first) :: rest =>
      match args_date with
      | Some (String _ _ as d) =>
          match to_datetime d with
          | inl e => inl (Uncaught e)
          | inr trade_date =>
              inr (run_selectors g trade_date data selector_cfgs)
          end
      | _ =>
          match latest_date first (map snd rest) with
          | inl e => inl (Uncaught e)
          | inr FloatNaN =>
              inl (Uncaught (OtherError "AttributeError"
                               "'float' object has no attribute 'date'"))
          | inr (Stamp trade_date) =>
              inr (LogDefaultDate trade_date
                   :: run_selectors g trade_date data selector_cfgs)
          end
      end
  end.

(** The reports {alias, trade date used, Pick Set} of a run, in the order
    in which they were emitted. *)
Definition reports (log : list log_record)
  : list (value * Timestamp * list string) :=
  omap (fun r => match r with
                 | LogPicks alias d picks => Some (alias, d, picks)
                 | _ => None
                 end) log.

End Main.

(** [load_config] of select.py: the loader of [config.utils] when that
    module can be imported, otherwise the same steps with [sys.exit(1)] in
    place of the two exceptions. The result comes with what was logged. *)
Definition load_config (utils_importable : bool) (package_dir : string)
    (fs : ConfigUtils.JsonFiles) (cfg_path : string)
  : list log_record * (termination + value) :=
  if utils_importable then
    match ConfigUtils.load_config package_dir fs (Some cfg_path) with
    | inl e => ([], inl (Uncaught e))
    | inr cfgs => ([], inr cfgs)
    end
  else
    match fs cfg_path with
    | None =>
        ([Log ERROR ("配置文件 " ++ cfg_path ++ " 不存在")], inl (Exit 1))
    | Some (inl e) => ([], inl (Uncaught e))
    | Some (inr cfg_raw) =>
        let cfgs :=
          match cfg_raw with
          | VList _ => cfg_raw
          | VDict d =>
              match dict_get d "selectors" with
              | Some selectors => selectors
              | None => VList [cfg_raw]
              end
          | _ => VList [cfg_raw]
          end in
        if negb (truthy cfgs)
        then ([Log ERROR "configs.json 未定义任何 Selector"], inl (Exit 1))
        else ([], inr cfgs)
    end.

Section LoadData.

(** [DataFrame.sort_values("date")] as pandas performs it. The files may
    hold several rows with one date, whose relative order after the sort
    is not fixed, so the sort is a parameter here. *)
Variable sort_values : DataFrame -> DataFrame.

(** [Path.name]: the last component of a path, what follows its last
    ["/"]. [current] is the component read so far. *)
Fixpoint name_from (current path : string) : string :=
  match path with
  | EmptyString => current
  | String c rest =>
      if Ascii.eqb c "/" then name_from "" rest
      else name_from (current ++ String c "") rest
  end.

Definition path_name (path : string) : string := name_from "" path.

(** One round of the loop of [load_data]; [files] maps a code to the
    frame read from [data_dir / f"{code}.csv"], [None] when that file does
    not exist. The warning shows [fp.name]. *)
Definition load_one (files : string -> option DataFrame)
    (acc : list log_record * Universe) (code : string)
  : list log_record * Universe :=
  match files code with
  | None =>
      ((fst acc
        ++ [Log WARNING (path_name (code ++ ".csv") ++ " 不存在，跳过")%string])%list,
       snd acc)
  | Some df => (fst acc, dict_set (snd acc) code (sort_values df))
  end.

Definition load_data (files : string -> option DataFrame)
    (codes : list string) : list log_record * Universe :=
  fold_left (load_one files) codes ([], []).

End LoadData.

End Select.

(* ===================================================================== *)
(** ** fetch_kline.py *)
(* ===================================================================== *)

Module FetchKline.
Import Py.

Definition zeros (n : nat) : string :=
  string_of_list_ascii (repeat "0"%char n).

(** [str.zfill], as in [Select.zfill], on ASCII codes. *)
Definition zfill (s : string) (width : nat) : string :=
  let fill := (width - String.length s)%nat in
  match fill with
  | O => s
  | _ =>
      match s with
      | String c rest =>
          if (Ascii.eqb c "+" || Ascii.eqb c "-")%bool
          then String c (zeros fill ++ rest)
          else zeros fill ++ s
      | EmptyString => zeros fill
      end
  end.

Definition startswith_any (s : string) (prefixes : list string) : bool :=
  existsb (fun p => String.prefix p s) prefixes.

Definition _to_ts_code (code : string) : string :=
  if startswith_any code ["60"; "68"; "9"]
  then zfill code 6 ++ ".SH"
  else zfill code 6 ++ ".SZ".

#[global] Instance Timestamp_eq_dec : EqDecision Timestamp.
Proof. solve_decision. Defined.

(** [df.drop_duplicates(subset="date")]: of the rows that share a date only
    the first is kept; missing dates count as equal to each other. [seen]
    holds the dates of the rows already passed. *)
Fixpoint drop_duplicates_from (seen : list Timestamp) (df : DataFrame)
  : DataFrame :=
  match df with
  | [] => []
  | r :: rest =>
      if bool_decide (date r ∈ seen)
      then drop_duplicates_from seen rest
      else r :: drop_duplicates_from (date r :: seen) rest
  end.

Definition drop_duplicates (df : DataFrame) : DataFrame :=
  drop_duplicates_from [] df.

(** The order of [sort_values("date")]: ascending, missing dates last. *)
Definition date_le (a b : Timestamp) : bool :=
  match a, b with
  | TS x, TS y => (x <=? y)%Z
  | _, NaT => true
  | NaT, TS _ => false
  end.

Fixpoint insert_row (r : row) (df : DataFrame) : DataFrame :=
  match df with
  | [] => [r]
  | r' :: rest =>
      if date_le (date r) (date r') then r :: df
      else r' :: insert_row r rest
  end.

(** [df.sort_values("date")]. The sort is applied to rows with pairwise
    different dates, where every sorting algorithm returns the same frame;
    insertion sort is used here. *)
Fixpoint sort_values (df : DataFrame) : DataFrame :=
  match df with
  | [] => []
  | r :: rest => insert_row r (sort_values rest)
  end.

(** [validate]; [today] is [pd.Timestamp.today()]. The index renumbering
    of [reset_index(drop=True)] is the position in the list. *)
Definition validate (today : Z) (df : DataFrame) : exn + DataFrame :=
  let df := sort_values (drop_duplicates df) in
  if existsb (fun r => isna (date r)) df
  then inl (ValueError "存在缺失日期！")
  else if existsb (fun r => ts_gt (date r) (TS today)) df
  then inl (ValueError "数据包含未来日期，可能抓取错误！")
  else inr df.

(** What fetch_kline.py hands to its logger, one constructor per call
    site. *)
Inductive event : Type :=
| SnapshotFailed (attempt : nat) (e : exn)
| Filtered (count : nat)
| KlineCall (market code datasource : string)
| HkSwitched
| HkCall (code : string)
| FetchStart (market code csv_path : string)
| ReadFailed (csv_path : string) (e : exn)
| UpToDate (code : string)
| NoNewData (code : string)
| AttemptFailed (code : string) (attempt : nat) (e : exn)
| GaveUp (code : string).

(** [df.loc[:, ~df.columns.duplicated()]] on a frame given by its columns
    (name and content): of the columns that share a name the first is
    kept. *)
Definition drop_dup_columns {C : Type} (df : list (string * C))
  : list (string * C) :=
  first_occurrences fst [] df.

(** One row of the market-value snapshot: the columns "代码" and "总市值" as
    delivered, and after the conversion to numbers. *)
Record spot_row : Type := SpotRow {
  spot_code : string;
  spot_total : value
}.

Record cap_row : Type := CapRow {
  cap_code : string;
  mktcap : float
}.

Section MarketCap.

(** [ak.stock_zh_a_spot_em()] as answered at the given attempt. *)
Variable stock_zh_a_spot_em : nat -> exn + list spot_row.

(** [pd.to_numeric(errors="coerce")] on one cell. *)
Variable to_numeric : value -> float.

(** [Series.str.zfill]. Whether a leading sign stays in front of the
    padding depends on the pandas release, so it is a parameter. *)
Variable str_zfill : string -> nat -> string.

(** The [for attempt in range(1, 4)] loop of [_get_mktcap_ak], from
    [attempt] on with [remaining] rounds left: the first answer ends the
    loop, each failure is logged. *)
Fixpoint snapshot_attempts (attempt remaining : nat)
  : list event * option (list spot_row) :=
  match remaining with
  | O => ([], None)
  | S k =>
      match stock_zh_a_spot_em attempt with
      | inr df => ([], Some df)
      | inl e =>
          let '(log, r) := snapshot_attempts (S attempt) k in
          (SnapshotFailed attempt e :: log, r)
      end
  end.

Definition _get_mktcap_ak : list event * (exn + list cap_row) :=
  let '(log, r) := snapshot_attempts 1 3 in
  match r with
  | None =>
      (log, inl (OtherError "RuntimeError" "AKShare 连续三次拉取市值快照失败！"))
  | Some df =>
      (log, inr (map (fun r => CapRow (spot_code r) (to_numeric (spot_total r))) df))
  end.

(** The boards left out for a small player. *)
Definition excluded_prefixes : list string := ["300"; "301"; "688"; "8"; "4"].

(** The row filter of [get_constituents]. *)
Definition cond (min_cap max_cap : float) (small_player : value) (r : cap_row)
  : bool :=
  (float_le min_cap (mktcap r) && float_le (mktcap r) max_cap
   && (if truthy small_player
       then negb (startswith_any (cap_code r) excluded_prefixes)
       else true))%bool.

(** [get_constituents]. [appendix] is what reading [appendix.json] and
    taking its ["data"] member gives: [None] when the file does not exist
    ([FileNotFoundError]), an exception for any other failure. *)
Definition get_constituents (min_cap max_cap : float) (small_player : value)
    (mktcap_df : option (list cap_row)) (appendix : option (exn + list string))
  : list event * (exn + list string) :=
  let '(log, df) :=
    match mktcap_df with
    | Some df => ([], inr df)
    | None => _get_mktcap_ak
    end in
  match df with
  | inl e => (log, inl e)
  | inr df =>
      let codes :=
        map (fun r => str_zfill (cap_code r) 6)
            (List.filter (cond min_cap max_cap small_player) df) in
      match appendix with
      | Some (inl e) => (log, inl e)
      | Some (inr appendix_codes) =>
          let codes := first_occurrences id [] (appendix_codes ++ codes)%list in
          ((log ++ [Filtered (length codes)])%list, inr codes)
      | None =>
          let codes := first_occurrences id [] codes in
          ((log ++ [Filtered (length codes)])%list, inr codes)
      end
  end.

End MarketCap.

Section Fetch.

(** The four fetchers. Their answers change with time, so each takes the
    moment [t] of the call before its Python parameters (code, start, end,
    adjust, and the frequency code for mootdx). *)
Variable _get_kline_hk_akshare :
  nat -> string -> string -> string -> string -> exn + DataFrame.
Variable _get_kline_tushare :
  nat -> string -> string -> string -> string -> exn + DataFrame.
Variable _get_kline_akshare :
  nat -> string -> string -> string -> string -> exn + DataFrame.
Variable _get_kline_mootdx :
  nat -> string -> string -> string -> string -> Z -> exn + DataFrame.

Definition market_label (market : string) : string :=
  if String.eqb market "HK" then "港" else "A".

Definition get_kline (t : nat) (code start end_ adjust datasource : string)
    (freq_code : Z) (market : string) : list event * (exn + DataFrame) :=
  let called := KlineCall (market_label market) code datasource in
  if String.eqb market "HK" then
    ((called
      :: (if negb (String.eqb datasource "akshare") then [HkSwitched] else [])
      ++ [HkCall code])%list,
     _get_kline_hk_akshare t code start end_ adjust)
  else if String.eqb datasource "tushare" then
    ([called], _get_kline_tushare t code start end_ adjust)
  else if String.eqb datasource "akshare" then
    ([called], _get_kline_akshare t code start end_ adjust)
  else if String.eqb datasource "mootdx" then
    ([called], _get_kline_mootdx t code start end_ adjust freq_code)
  else
    ([called],
     inl (ValueError "datasource 仅支持 'tushare', 'akshare' 或 'mootdx'")).

(** [pd.Timestamp.today()] at the moment [t]. *)
Variable today : nat -> Z.

(** [pd.to_datetime(end, format="%Y%m%d")] and
    [Timestamp.strftime("%Y%m%d")]. *)
Variable parse_ymd : string -> exn + Z.
Variable strftime_ymd : Z -> string.

(** The exception met when the last date of the existing file is [NaT]. *)
Variable nat_error : exn.

(** [Timestamp.date()], for comparisons: the day a timestamp
    (nanoseconds) falls on. *)
Definition day_of (t : Z) : Z := (t / 86400000000000)%Z.

(** What [fetch_one] does to the file at [csv_path] ([written]: the frame
    handed to [to_csv], if any) and what it logs. *)
Record outcome : Type := Outcome {
  written : option DataFrame;
  events : list event
}.

Definition logged (e : event) (o : outcome) : outcome :=
  Outcome (written o) (e :: events o).

Definition logged_all (es : list event) (o : outcome) : outcome :=
  Outcome (written o) (es ++ events o)%list.

Section FetchOne.
Variables (code end_ csv_path datasource market : string).
Variables (incremental : bool) (freq_code : Z).

(** The file at [csv_path] as [pd.read_csv(csv_path, parse_dates=["date"])]
    sees it: [None] when it does not exist. Writing it is taken to succeed. *)
Variable existing : option (exn + DataFrame).

(** The [for attempt in range(1, 4)] loop of [fetch_one] from [attempt]
    on, with [remaining] rounds left. The columns of a frame are those of
    [row], which are pairwise different, so [drop_dup_columns] leaves both
    frames as they are. *)
Fixpoint fetch_attempts (start : string) (attempt remaining : nat) : outcome :=
  match remaining with
  | O => Outcome None [GaveUp code]
  | S k =>
      let '(log, answer) :=
        get_kline attempt code start end_ "qfq" datasource freq_code market in
      let retry e :=
        logged_all log
          (logged (AttemptFailed code attempt e)
             (fetch_attempts start (S attempt) k)) in
      match answer with
      | inl e => retry e
      | inr [] => Outcome None (log ++ [NoNewData code])%list
      | inr new_df =>
          match validate (today attempt) new_df with
          | inl e => retry e
          | inr new_df =>
              match existing, incremental with
              | Some (inl e), true => retry e
              | Some (inr old_df), true =>
                  Outcome
                    (Some (sort_values (drop_duplicates (old_df ++ new_df)%list)))
                    log
              | _, _ => Outcome (Some new_df) log
              end
          end
      end
  end.

(** The incremental prelude of [fetch_one]: [None] when the file is
    already newer than [end] (the function returns), otherwise the start
    of the download, with what was logged. *)
Definition resume_from (start : string) : list event * option string :=
  match existing, incremental with
  | Some file, true =>
      match file with
      | inl e => ([ReadFailed csv_path e], Some start)
      | inr df =>
          match series_max df with
          | FloatNaN =>
              ([ReadFailed csv_path
                  (OtherError "AttributeError"
                     "'float' object has no attribute 'date'")],
               Some start)
          | Stamp last =>
              match parse_ymd end_, last with
              | inl e, _ => ([ReadFailed csv_path e], Some start)
              | inr _, NaT => ([ReadFailed csv_path nat_error], Some start)
              | inr end_ts, TS last_date =>
                  if (day_of end_ts <? day_of last_date)%Z
                  then ([UpToDate code], None)
                  else ([], Some (strftime_ymd last_date))
              end
          end
      end
  | _, _ => ([], Some start)
  end.

Definition fetch_one (start : string) : outcome :=
  let '(log, resume) := resume_from start in
  logged (FetchStart (market_label market) code csv_path)
    (logged_all log
       match resume with
       | None => Outcome None []
       | Some start => fetch_attempts start 1 3
       end).

End FetchOne.

End Fetch.

End FetchKline.

(* ===================================================================== *)
(** ** The RSV indicator *)
(* ===================================================================== *)

Module Indicator.

(** A bar of an OHLCV series, over the rationals. *)
Record Bar : Type := MkBar {
  bar_date : Z;
  bar_open : Q;
  bar_high : Q;
  bar_low : Q;
  bar_close : Q;
  bar_volume : Q
}.

(** The invariant of a bar: [high >= max(open, close, low)],
    [low <= min(open, close, high)], [volume >= 0]. *)
Definition Bar_invariant (b : Bar) : Prop :=
  (bar_open b <= bar_high b /\ bar_close b <= bar_high b
   /\ bar_low b <= bar_high b
   /\ bar_low b <= bar_open b /\ bar_low b <= bar_close b
   /\ 0 <= bar_volume b)%Q.

Definition min_list (l : list Q) : option Q :=
  match l with
  | [] => None
  | x :: xs => Some (fold_left Qmin xs x)
  end.

Definition max_list (l : list Q) : option Q :=
  match l with
  | [] => None
  | x :: xs => Some (fold_left Qmax xs x)
  end.

(** The entries [xs[i-n+1 .. i]], for [n - 1 <= i]. *)
Definition trailing (xs : list Q) (n i : nat) : list Q :=
  firstn n (skipn (i + 1 - n) xs).

(** Rolling aggregate over the trailing [n] entries ending at [i];
    undefined while fewer than [n] entries are available. *)
Definition rolling (agg : list Q -> option Q) (xs : list Q) (n i : nat)
  : option Q :=
  if ((n <=? i + 1)%nat && (i <? length xs)%nat)%bool
  then agg (trailing xs n i)
  else None.

Definition rolling_min (series : list Bar) (n i : nat) : option Q :=
  rolling min_list (map bar_low series) n i.

Definition rolling_max (series : list Bar) (n i : nat) : option Q :=
  rolling max_list (map bar_high series) n i.

(** Modelled from the spec: [compute_rsv] lives in the selector module,
    which is not among the sources. At index [i] the value is
    [(close[i] - min(low[i-n+1..i])) / (max(high[i-n+1..i]) -
    min(low[i-n+1..i])) * 100]; it is undefined for [i < n-1] and when the
    high/low range is zero. *)
Definition rsv_at (series : list Bar) (n i : nat) : option Q :=
  match series !! i, rolling_min series n i, rolling_max series n i with
  | Some b, Some lo, Some hi =>
      if Qeq_bool hi lo then None
      else Some ((bar_close b - lo) / (hi - lo) * 100)%Q
  | _, _, _ => None
  end.

Definition compute_rsv (series : list Bar) (n : nat) : list (option Q) :=
  map (rsv_at series n) (seq 0 (length series)).

End Indicator.

(* ===================================================================== *)
(** ** A small concrete selector module, used to run the code *)
(* ===================================================================== *)

Module Sample.
Import Py Select.

(** One class, [EveryCode], which takes no parameters and picks every code
    of the universe. *)
Definition EveryCode (params : list (string * value)) : exn + unit :=
  match params with
  | [] => inr tt
  | (k, _) :: _ =>
      inl (TypeError ("__init__() got an unexpected keyword argument '"
                      ++ k ++ "'"))
  end.

(** The attribute [__name__] that every module has: a string, which
    cannot be called. *)
Definition not_callable (params : list (string * value)) : exn + unit :=
  inl (TypeError "'str' object is not callable").

#[local] Instance sample_module : SelectorModule := {|
  selector := unit;
  selector_module :=
    Some (fun name =>
            if String.eqb name "EveryCode" then Some EveryCode
            else if String.eqb name "__name__" then Some not_callable
            else None);
  select := fun _ _ data => map fst data
|}.

Definition the_module : SelectorModule := sample_module.

Definition type_of (v : value) : string :=
  match v with
  | VNone => "NoneType"
  | VBool _ => "bool"
  | VInt _ => "int"
  | VFloat _ => "float"
  | VStr _ => "str"
  | VList _ => "list"
  | VDict _ => "dict"
  end.

Definition interpreter : Interpreter := {|
  str_object := fun _ => "<object>";
  getattr_name_error :=
    fun v => "attribute name must be string, not '" ++ type_of v ++ "'";
  kwargs_error := fun _ => "argument after ** must be a mapping"
|}.

Definition no_date (s : string) : exn + Timestamp :=
  inl (ValueError ("Unknown datetime string format: " ++ s)).

Definition bar (t : Z) : row :=
  Row (TS t) (Some 1%Q) (Some 1%Q) (Some 1%Q) (Some 1%Q) (Some 1%Q).

Definition undated : row :=
  Row NaT (Some 1%Q) (Some 1%Q) (Some 1%Q) (Some 1%Q) (Some 1%Q).

Definition quiet (_ : string) : exn + option basic_row := inr None.
Definition named (n : string) (_ : string) : exn + option basic_row :=
  inr (Some (BasicRow n "bank" "SZ" "19910403")).

Definition client (n : string) : globals :=
  Globals "token"
    (ProApi (named n) (fun _ => inr None) (fun _ => inr None)).

Definition good_cfg : gmap string value := <["class" := VStr "EveryCode"]> ∅.





Definition one_series : Universe := [("000001", [bar 5])].

Definition two_series : Universe :=
  [("000001", [bar 3; bar 5]); ("000002", [bar 7; bar 2])].

(** The first file read has a row without a date, the second one bar. *)
Definition undated_first : Universe :=
  [("000001", [undated]); ("000002", [bar 5])].

(** Three rising bars, and two flat ones. *)
Definition rising : list Indicator.Bar :=
  [ Indicator.MkBar 1 10 12 9 11 100;
    Indicator.MkBar 2 11 13 10 12 100;
    Indicator.MkBar 3 12 14 11 13 100 ]%Q.

Definition flat : list Indicator.Bar :=
  [ Indicator.MkBar 1 10 10 10 10 0;
    Indicator.MkBar 2 10 10 10 10 0 ]%Q.

(** A market-value snapshot, and a provider that answers at the second
    attempt. *)
Definition snapshot : list FetchKline.cap_row :=
  [ FetchKline.CapRow "1" (Finite 6000000000);
    FetchKline.CapRow "300750" (Finite 900000000000);
    FetchKline.CapRow "600000" NaN;
    FetchKline.CapRow "2" (Finite 1);
    FetchKline.CapRow "600519" (Finite 2000000000000) ].

Definition spot_second (attempt : nat) : exn + list FetchKline.spot_row :=
  match attempt with
  | 2%nat => inr [FetchKline.SpotRow "1" (VInt 6000000000)]
  | _ => inl (OtherError "ConnectionError" "timed out")
  end.

Definition spot_never (_ : nat) : exn + list FetchKline.spot_row :=
  inl (OtherError "ConnectionError" "timed out").

(** Kline providers: one that fails at the first call and then answers
    with three rows, and one that is down. *)
Definition flaky (t : nat) (_ _ _ _ : string) : exn + DataFrame :=
  match t with
  | 1%nat => inl (OtherError "ConnectionError" "timed out")
  | _ => inr [bar 4; bar 3; bar 4]
  end.

Definition down (_ : nat) (_ _ _ _ : string) : exn + DataFrame :=
  inl (OtherError "ConnectionError" "timed out").

Definition no_mootdx (_ : nat) (_ _ _ _ : string) (_ : Z) : exn + DataFrame :=
  inr [].

Definition clock (_ : nat) : Z := 10.

Definition ymd (_ : string) : exn + Z := inr 0%Z.

Definition show_ymd (_ : Z) : string := "19700101".

Definition nat_failure : exn :=
  OtherError "ValueError" "NaTType does not support strftime".

(** A data directory with one file. *)
Definition one_file (code : string) : option DataFrame :=
  if String.eqb code "000001" then Some [bar 2; bar 1] else None.

Definition numeric (v : value) : float :=
  match v with
  | VInt n => Finite (inject_Z n)
  | VFloat q => Finite q
  | _ => NaN
  end.

End Sample.

(* ===================================================================== *)
(** ** Notions used to state the properties *)
(* ===================================================================== *)

Module Notions.
Import Py Select.



(** The fields of a configuration entry that the code reads. *)
Definition known_fields : list string := ["class"; "alias"; "params"; "activate"].

Section Runner.
Context {SM : SelectorModule} {PI : Interpreter}.


(** The report owed for one configuration entry: none for a deactivated
    entry or one whose construction fails, otherwise the alias, the trade
    date and the picks of the constructed selector. *)
Definition report_of (trade_date : Timestamp) (data : Universe)
    (cfg : gmap string value) : option (value * Timestamp * list string) :=
  if deactivated cfg then None
  else
    match instantiate_selector cfg with
    | inl _ => None
    | inr (alias, sel) => Some (alias, trade_date, select sel trade_date data)
    end.

End Runner.

(** The conversion as described in words: pad with zeros on the left to
    six characters, then the exchange suffix. *)
Definition left_pad (s : string) (width : nat) : string :=
  zeros (width - String.length s) ++ s.

Definition to_ts_code_described (code : string) : string :=
  left_pad code 6 ++
  (if (String.prefix "60" code || String.prefix "68" code
       || String.prefix "9" code)%bool
   then ".SH" else ".SZ").

(** Date order of two rows of a frame, as a relation. *)
Definition row_le (a b : row) : Prop :=
  FetchKline.date_le (date a) (date b) = true.

Definition signed (s : string) : bool :=
  match s with
  | String c _ => (Ascii.eqb c "+" || Ascii.eqb c "-")%bool
  | EmptyString => false
  end.

(** An event that records the failure of attempt [j] of the snapshot
    download. *)
Definition failed_attempt
    (stock_zh_a_spot_em : nat -> exn + list FetchKline.spot_row)
    (ev : FetchKline.event) (j : nat) : Prop :=
  exists e, stock_zh_a_spot_em j = inl e /\ ev = FetchKline.SnapshotFailed j e.

(** Events of [fetch_one]: a call of [get_kline], a failed attempt. *)
Definition is_kline_call (ev : FetchKline.event) : bool :=
  match ev with FetchKline.KlineCall _ _ _ => true | _ => false end.

Definition is_attempt_failed (ev : FetchKline.event) : bool :=
  match ev with FetchKline.AttemptFailed _ _ _ => true | _ => false end.

Definition count_events (f : FetchKline.event -> bool)
    (events : list FetchKline.event) : nat :=
  length (List.filter f events).

(** A series whose bars all have a date, as a Bar of the data model has. *)
Definition dated (df : DataFrame) : Prop :=
  Forall (fun r => isna (date r) = false) df.

(** Whether a file exists for a code. *)
Definition has_file {F : Type} (files : string -> option F) (code : string)
  : bool :=
  match files code with Some _ => true | None => false end.

End Notions.

(* ===================================================================== *)
(** * Properties *)
(* ===================================================================== *)

Import Py Select Notions.

(** ** instantiate_selector *)

Section InstantiateFacts.
Context {SM : SelectorModule} {PI : Interpreter}.







(** Two entries that agree on the fields the code reads are treated alike. *)
Lemma instantiate_selector_agree (cfg1 cfg2 : gmap string value) :
  (forall k, k ∈ known_fields -> cfg1 !! k = cfg2 !! k) ->
  instantiate_selector cfg1 = instantiate_selector cfg2
  /\ deactivated cfg1 = deactivated cfg2.
Proof.
  intros Hagree.
  assert (Hget : forall k d, k ∈ known_fields -> get cfg1 k d = get cfg2 k d).
  { intros k d Hk. unfold get. rewrite (Hagree k Hk). reflexivity. }
  unfold instantiate_selector, deactivated.
  rewrite !(Hget "class"), !(Hget "params"), !(Hget "alias"), !(Hget "activate")
    by (unfold known_fields; set_solver).
  split; reflexivity.
Qed.


End InstantiateFacts.




(** C6. Fields other than ["class"], ["alias"], ["params"] and
    ["activate"] are ignored: setting such a field to any value, or
    removing it, changes neither the result of [instantiate_selector] (the
    alias and selector, or the error) nor the activation decision. *)
Theorem unrecognized_fields_ignored {SM : SelectorModule} {PI : Interpreter}
    (cfg : gmap string value) (k : string) (v : value) :
  k ∉ known_fields ->
  instantiate_selector (<[k := v]> cfg) = instantiate_selector cfg
  /\ deactivated (<[k := v]> cfg) = deactivated cfg
  /\ instantiate_selector (delete k cfg) = instantiate_selector cfg
  /\ deactivated (delete k cfg) = deactivated cfg.
Proof.
  intros Hk.
  assert (Hins : forall k', k' ∈ known_fields -> <[k := v]> cfg !! k' = cfg !! k').
  { intros k' Hk'. apply lookup_insert_ne. intros ->. exact (Hk Hk'). }
  assert (Hdel : forall k', k' ∈ known_fields -> delete k cfg !! k' = cfg !! k').
  { intros k' Hk'. apply lookup_delete_ne. intros ->. exact (Hk Hk'). }
  destruct (instantiate_selector_agree _ _ Hins) as [-> ->].
  destruct (instantiate_selector_agree _ _ Hdel) as [-> ->].
  auto.
Qed.

Lemma unrecognized_fields_ignored_witness :
  let cfg : gmap string value :=
    <["class" := VStr "EveryCode"]> (<["comment" := VStr "old"]> ∅) in
  instantiate_selector (SM := Sample.the_module) (PI := Sample.interpreter) (<["comment" := VInt 7]> cfg)
    = instantiate_selector (SM := Sample.the_module) (PI := Sample.interpreter) cfg
  /\ deactivated (<["comment" := VInt 7]> cfg) = deactivated cfg
  /\ instantiate_selector (SM := Sample.the_module) (PI := Sample.interpreter) (delete "comment" cfg)
     = instantiate_selector (SM := Sample.the_module) (PI := Sample.interpreter) cfg
  /\ deactivated (delete "comment" cfg) = deactivated cfg.
Proof.
  intros cfg.
  apply (unrecognized_fields_ignored (SM := Sample.the_module) (PI := Sample.interpreter) cfg "comment" (VInt 7)).
  unfold known_fields. intros Hin.
  repeat (apply elem_of_cons in Hin as [Hin|Hin]; [discriminate Hin|]).
  apply elem_of_nil in Hin. exact Hin.
Defined.

(** ** The loop over the configuration entries *)

Open Scope list_scope.

Section RunnerFacts.
Context {SM : SelectorModule} {PI : Interpreter}.
Variable to_datetime : string -> exn + Timestamp.


Lemma run_selectors_cons g d data cfg (l : list (gmap string value)) :
  run_selectors g d data (cfg :: l)
  = run_cfg g d data cfg ++ run_selectors g d data l.
Proof. reflexivity. Qed.

Lemma reports_app (l1 l2 : list log_record) :
  reports (l1 ++ l2) = reports l1 ++ reports l2.
Proof. unfold reports. apply omap_app. Qed.

Lemma reports_when_row {A : Type} (o : option A) (f : A -> list log_record) :
  (forall r, reports (f r) = []) -> reports (when_row o f) = [].
Proof. intros Hf. destruct o as [r|]; [apply Hf | reflexivity]. Qed.

Lemma reports_company_lines r : reports (company_lines r) = [].
Proof.
  unfold company_lines, introduction_line.
  destruct (introduction r) as [[|c s]|]; reflexivity.
Qed.

(** The cuts of the company texts count characters, not bytes. *)
Example main_business_text_cut :
  len "主营业务" = 4%nat
  /\ slice_to 2 "主营业务" = "主营"
  /\ main_business_text (Some "主营业务") = "主营业务"
  /\ main_business_text
       (Some (string_of_list_ascii (repeat "a"%char 101) ++ "业")%string)
     = (string_of_list_ascii (repeat "a"%char 100) ++ "...")%string.
Proof. repeat split; vm_compute; reflexivity. Qed.

Lemma reports_basic_info_of g code : reports (basic_info_of g code) = [].
Proof.
  unfold basic_info_of, failed.
  destruct (stock_basic _ _) as [?|b]; [reflexivity|].
  destruct (daily_basic _ _) as [?|dl]; [reflexivity|].
  destruct (stock_company _ _) as [?|c]; [reflexivity|].
  rewrite !reports_app, !reports_when_row; auto using reports_company_lines.
Qed.

Lemma reports_get_stock_basic_info g picks :
  reports (get_stock_basic_info g picks) = [].
Proof.
  unfold get_stock_basic_info. destruct picks as [|p ps]; [reflexivity|].
  change (reports (flat_map (basic_info_of g) (p :: ps)) = []).
  induction (p :: ps) as [|c l IH]; [reflexivity|].
  simpl. rewrite reports_app, reports_basic_info_of, IH. reflexivity.
Qed.

Lemma reports_run_cfg g d data cfg :
  reports (run_cfg g d data cfg) = option_list (report_of d data cfg).
Proof.
  unfold run_cfg, report_of.
  destruct (deactivated cfg); [reflexivity|].
  destruct (instantiate_selector cfg) as [e|[alias sel]]; [reflexivity|].
  change (LogPicks alias d (select sel d data) :: ?l)
    with ([LogPicks alias d (select sel d data)] ++ l).
  rewrite reports_app, reports_get_stock_basic_info. reflexivity.
Qed.

Lemma reports_run_selectors g d data (cfgs : list (gmap string value)) :
  reports (run_selectors g d data cfgs) = omap (report_of d data) cfgs.
Proof.
  induction cfgs as [|cfg cfgs IH]; [reflexivity|].
  rewrite run_selectors_cons, reports_app, reports_run_cfg, IH.
  simpl. destruct (report_of d data cfg); reflexivity.
Qed.





End RunnerFacts.








(** ** The module-level client *)

(** C8, as amended. The reports (alias, trade date, Pick Set) of a run do
    not depend on the module globals [ts_token] and [pro]: two runs that
    differ only in them emit the same reports. *)
Theorem pick_sets_independent_of_globals {SM : SelectorModule} {PI : Interpreter}
    (to_datetime : string -> exn + Timestamp) (g1 g2 : globals)
    (args_date : option string) (d : Timestamp) (data : Universe)
    (cfgs : list (gmap string value)) :
  reports (run_selectors g1 d data cfgs) = reports (run_selectors g2 d data cfgs)
  /\ (forall log1,
        main to_datetime g1 args_date data cfgs = inr log1 ->
        exists log2, main to_datetime g2 args_date data cfgs = inr log2
                     /\ reports log2 = reports log1).
Proof.
  split.
  - rewrite !reports_run_selectors. reflexivity.
  - unfold main. destruct data as [|[code first] rest]; [discriminate|].
    destruct args_date as [[|c s]|].
    + destruct (latest_date first (map snd rest)) as [e|[used|]];
        try discriminate.
      intros log1 [= <-]. eexists. split; [reflexivity|].
      change (reports (LogDefaultDate ?t :: ?l)) with (reports l).
      rewrite !reports_run_selectors. reflexivity.
    + destruct (to_datetime (String c s)) as [e|used]; [discriminate|].
      intros log1 [= <-]. eexists. split; [reflexivity|].
      rewrite !reports_run_selectors. reflexivity.
    + destruct (latest_date first (map snd rest)) as [e|[used|]];
        try discriminate.
      intros log1 [= <-]. eexists. split; [reflexivity|].
      change (reports (LogDefaultDate ?t :: ?l)) with (reports l).
      rewrite !reports_run_selectors. reflexivity.
Qed.

Lemma pick_sets_independent_of_globals_witness :
  exists log2,
    main (SM := Sample.the_module) (PI := Sample.interpreter) Sample.no_date (Sample.client "B") None
      Sample.one_series [Sample.good_cfg] = inr log2
    /\ reports log2 = [(VStr "EveryCode", TS 5, ["000001"])].
Proof.
  apply (proj2 (pick_sets_independent_of_globals (SM := Sample.the_module) (PI := Sample.interpreter)
                  Sample.no_date (Sample.client "A") (Sample.client "B")
                  None (TS 5) Sample.one_series [Sample.good_cfg])
           (LogDefaultDate (TS 5)
            :: run_selectors (SM := Sample.the_module) (PI := Sample.interpreter) (Sample.client "A")
                 (TS 5) Sample.one_series [Sample.good_cfg])).
  reflexivity.
Defined.

(** C8, as stated, fails: the client is not handed to
    [get_stock_basic_info] among its parameters but read from the module
    globals, and what the function logs for the same picks changes with
    them; so does the log of a whole run. *)
Lemma enrichment_depends_on_module_client :
  get_stock_basic_info (Sample.client "A") ["000001"]
  <> get_stock_basic_info (Sample.client "B") ["000001"]
  /\ main (SM := Sample.the_module) (PI := Sample.interpreter) Sample.no_date (Sample.client "A") None
       Sample.one_series [Sample.good_cfg]
     <> main (SM := Sample.the_module) (PI := Sample.interpreter) Sample.no_date (Sample.client "B") None
          Sample.one_series [Sample.good_cfg].
Proof.
  split; intros Heq; vm_compute in Heq; discriminate Heq.
Qed.

(** ** The default trade date *)

Lemma fold_left_Zmax_spec (l : list Z) (a : Z) :
  (a <= fold_left Z.max l a)%Z
  /\ (forall t, t ∈ l -> (t <= fold_left Z.max l a)%Z)
  /\ fold_left Z.max l a ∈ a :: l.
Proof.
  revert a. induction l as [|x l IH]; intros a; simpl.
  - repeat split; [lia | | left]. intros t Ht. inversion Ht.
  - destruct (IH (Z.max a x)) as (Hge & Hall & Hin).
    split; [lia|]. split.
    + intros t Ht. apply elem_of_cons in Ht as [->|Ht]; [lia | auto].
    + apply elem_of_cons in Hin as [Hin|Hin].
      * rewrite Hin. destruct (Z.max_spec a x) as [[_ ->]|[_ ->]].
        -- right. left.
        -- left.
      * right. right. exact Hin.
Qed.

(** [df["date"].max()] is the largest date of the frame, when it has one. *)
Lemma date_max_spec (df : DataFrame) :
  match date_max df with
  | NaT => valid_dates df = []
  | TS m => m ∈ valid_dates df /\ forall t, t ∈ valid_dates df -> (t <= m)%Z
  end.
Proof.
  unfold date_max. destruct (valid_dates df) as [|a l]; [reflexivity|].
  destruct (fold_left_Zmax_spec l a) as (Hge & Hall & Hin).
  split; [exact Hin|].
  intros t Ht. apply elem_of_cons in Ht as [->|Ht]; auto.
Qed.

Lemma builtin_max_NaT (rest : list Timestamp) :
  builtin_max (Stamp NaT) (map Stamp rest) = inr (Stamp NaT).
Proof.
  induction rest as [|x rest IH]; [reflexivity|].
  simpl. destruct x; exact IH.
Qed.

Lemma builtin_max_TS (rest : list Timestamp) (a : Z) :
  exists m, builtin_max (Stamp (TS a)) (map Stamp rest) = inr (Stamp (TS m))
            /\ (a <= m)%Z
            /\ (forall t, TS t ∈ rest -> (t <= m)%Z)
            /\ (m = a \/ TS m ∈ rest).
Proof.
  revert a. induction rest as [|x rest IH]; intros a; simpl.
  - exists a. repeat split; [lia | | auto]. intros t Ht. inversion Ht.
  - destruct x as [|b]; simpl.
    + destruct (IH a) as (m & -> & Hge & Hall & Hin). exists m.
      repeat split; auto.
      * intros t Ht. apply elem_of_cons in Ht as [Ht|Ht]; [discriminate | auto].
      * destruct Hin as [->|Hin]; [left | right; right]; auto.
    + destruct (Z.ltb_spec a b) as [Hlt|Hle].
      * destruct (IH b) as (m & -> & Hge & Hall & Hin). exists m.
        repeat split; auto; [lia | |].
        -- intros t Ht.
           apply elem_of_cons in Ht as [[= ->]|Ht]; [exact Hge | auto].
        -- right. destruct Hin as [->|Hin]; [left | right; exact Hin].
      * destruct (IH a) as (m & -> & Hge & Hall & Hin). exists m.
        repeat split; auto.
        -- intros t Ht.
           apply elem_of_cons in Ht as [[= ->]|Ht]; [lia | auto].
        -- destruct Hin as [->|Hin]; [left | right; right]; auto.
Qed.

(** A frame whose latest date is a timestamp has rows. *)
Lemma series_max_dated (df : DataFrame) (t : Z) :
  date_max df = TS t -> series_max df = Stamp (TS t).
Proof.
  intros Hmax. destruct df as [|r df]; [discriminate|].
  simpl. rewrite <- Hmax. reflexivity.
Qed.

(** On frames that have rows, [df["date"].max()] is a timestamp. *)
Lemma series_max_rows (frames : list DataFrame) :
  Forall (fun df => df <> []) frames ->
  map series_max frames = map Stamp (map date_max frames).
Proof.
  induction 1 as [|df frames Hdf _ IH]; [reflexivity|].
  simpl. rewrite IH. destruct df; [contradiction | reflexivity].
Qed.

(** The generator [max(df["date"].max() for df in data.values())] on
    frames that have rows, the first of them with a dated bar. *)
Lemma latest_date_dated (first : DataFrame) (rest : list DataFrame) :
  Forall (fun df => df <> []) (first :: rest) ->
  date_max first <> NaT ->
  exists m, Select.latest_date first rest = inr (Stamp (TS m))
            /\ (exists df, df ∈ first :: rest /\ m ∈ valid_dates df)
            /\ (forall df t, df ∈ first :: rest -> t ∈ valid_dates df ->
                  (t <= m)%Z).
Proof.
  intros Hrows Hfirst. unfold Select.latest_date.
  apply Forall_cons in Hrows as [Hrow Hrows].
  rewrite (series_max_rows rest Hrows).
  destruct first as [|r first]; [contradiction|]. cbn [series_max].
  pose proof (date_max_spec (r :: first)) as Hf.
  destruct (date_max (r :: first)) as [|a]; [congruence|].
  destruct Hf as [Hain Hamax].
  destruct (builtin_max_TS (map date_max rest) a) as (m & -> & Hge & Hall & Hin).
  exists m. split; [reflexivity|]. split.
  - destruct Hin as [->|Hin].
    + exists (r :: first). split; [left | exact Hain].
    + apply list_elem_of_fmap in Hin as (df & Hdf & Hdfin).
      exists df. split; [right; exact Hdfin|].
      pose proof (date_max_spec df) as Hs. rewrite <- Hdf in Hs. apply Hs.
  - intros df t Hdf Ht. apply elem_of_cons in Hdf as [->|Hdf].
    + specialize (Hamax t Ht). lia.
    + pose proof (date_max_spec df) as Hs.
      destruct (date_max df) as [|b] eqn:Hb.
      * rewrite Hs in Ht. inversion Ht.
      * destruct Hs as [_ Hbmax]. specialize (Hbmax t Ht).
        assert (b <= m)%Z; [|lia].
        apply Hall. rewrite <- Hb. apply list_elem_of_fmap. eauto.
Qed.

(** X15. When every series read has rows and the first one has a dated
    bar, the default trade date is the latest bar date over all series;
    series without any dated bar further down the universe are passed
    over. *)
Theorem latest_date_is_maximum (first : DataFrame) (rest : list DataFrame) :
  Forall (fun df => df <> []) (first :: rest) ->
  date_max first <> NaT ->
  exists m, Select.latest_date first rest = inr (Stamp (TS m))
            /\ (exists df, df ∈ first :: rest /\ m ∈ valid_dates df)
            /\ (forall df t, df ∈ first :: rest -> t ∈ valid_dates df ->
                  (t <= m)%Z).
Proof. exact (latest_date_dated first rest). Qed.

Lemma dated_rows_max (df : DataFrame) :
  dated df -> df <> [] -> date_max df <> NaT.
Proof.
  intros Hdated Hrows.
  destruct df as [|r df]; [contradiction|].
  apply Forall_cons in Hdated as [Hr _].
  unfold date_max, valid_dates. simpl.
  destruct (date r); [discriminate|]. simpl. discriminate.
Qed.

Lemma dated_series_max (df : DataFrame) :
  dated df -> series_max df <> Stamp NaT.
Proof.
  intros Hdated. destruct df as [|r rows]; [discriminate|].
  cbn [series_max]. intros [= Hmax].
  apply (dated_rows_max (r :: rows)); [exact Hdated | discriminate | exact Hmax].
Qed.

(** Among the maxima of frames whose rows are all dated, one [nan] (a
    frame without rows) is enough for [max] to raise, or to return [nan]
    when every frame is without rows. *)
Lemma builtin_max_nan (cur : scalar) (rest : list scalar) :
  Forall (fun x => x <> Stamp NaT) (cur :: rest) ->
  FloatNaN ∈ cur :: rest ->
  (exists e, builtin_max cur rest = inl e)
  \/ builtin_max cur rest = inr FloatNaN.
Proof.
  revert cur. induction rest as [|item rest IH]; intros cur Hall Hin.
  - apply list_elem_of_singleton in Hin as <-. right. reflexivity.
  - apply Forall_cons in Hall as [Hcur Hall].
    apply Forall_cons in Hall as [Hitem Hall].
    destruct cur as [[|a]|]; [congruence| |];
      (destruct item as [[|b]|]; [congruence| |]); simpl.
    + apply elem_of_cons in Hin as [Hin|Hin]; [discriminate|].
      apply elem_of_cons in Hin as [Hin|Hin]; [discriminate|].
      destruct (a <? b)%Z; apply IH;
        try (constructor; [discriminate | exact Hall]);
        right; exact Hin.
    + left. eexists. reflexivity.
    + left. eexists. reflexivity.
    + apply IH; [constructor; [discriminate | exact Hall] | left].
Qed.

Lemma report_of_date {SM : SelectorModule} {PI : Interpreter}
    (d : Timestamp) (data : Universe) (cfgs : list (gmap string value)) :
  Forall (fun r => snd (fst r) = d) (omap (report_of d data) cfgs).
Proof.
  induction cfgs as [|cfg cfgs IH]; simpl; [constructor|].
  unfold report_of at 1.
  destruct (deactivated cfg); [exact IH|].
  destruct (instantiate_selector cfg) as [e|[alias sel]]; [exact IH|].
  constructor; [reflexivity | exact IH].
Qed.

(** C9. On a universe whose bars all have a date, as the data model
    requires, a run without [--date] (the argument absent or empty) uses
    as trade date the latest bar date over all series: when every series
    has at least one bar the run logs that date, hands it to every
    selector and reports it with every Pick Set. When some series has no
    bar at all the run ends with an exception before any selector is
    constructed, so no other date is ever used. *)
Theorem default_trade_date_is_latest_bar_date
    {SM : SelectorModule} {PI : Interpreter}
    (to_datetime : string -> exn + Timestamp) (g : globals)
    (data : Universe) (cfgs : list (gmap string value)) :
  data <> [] ->
  Forall (fun series => dated (snd series)) data ->
  main to_datetime g (Some "") data cfgs = main to_datetime g None data cfgs
  /\ (Forall (fun series => snd series <> []) data ->
      exists m,
        (exists series, series ∈ data /\ m ∈ valid_dates (snd series))
        /\ (forall series t, series ∈ data ->
              t ∈ valid_dates (snd series) -> (t <= m)%Z)
        /\ main to_datetime g None data cfgs
           = inr (LogDefaultDate (TS m) :: run_selectors g (TS m) data cfgs)
        /\ reports (LogDefaultDate (TS m)
                    :: run_selectors g (TS m) data cfgs)
           = omap (report_of (TS m) data) cfgs
        /\ Forall (fun r => snd (fst r) = TS m)
             (reports (LogDefaultDate (TS m)
                       :: run_selectors g (TS m) data cfgs)))
  /\ (Exists (fun series => snd series = []) data ->
      exists e, main to_datetime g None data cfgs = inl (Uncaught e)).
Proof.
  intros Hdata Hdated.
  destruct data as [|[code first] rest]; [contradiction|].
  split; [reflexivity|]. split.
  - intros Hrows.
    assert (Hframes : Forall (fun df => df <> []) (first :: map snd rest)).
    { apply Forall_cons in Hrows as [Hfirst Hrest].
      constructor; [exact Hfirst|].
      apply Forall_forall. intros df Hdf.
      apply list_elem_of_fmap in Hdf as (series & -> & Hin).
      rewrite Forall_forall in Hrest. apply (Hrest series Hin). }
    assert (Hfirst : date_max first <> NaT).
    { apply Forall_cons in Hdated as [Hd _].
      apply Forall_cons in Hrows as [Hr _].
      apply dated_rows_max; assumption. }
    destruct (latest_date_dated first (map snd rest) Hframes Hfirst)
      as (m & Hmax & (df & Hdf & Hm) & Hle).
    assert (Hmember : forall df, df ∈ first :: map snd rest <->
              exists series, series ∈ (code, first) :: rest /\ snd series = df).
    { intros df'. split.
      - intros Hin. apply elem_of_cons in Hin as [->|Hin].
        + exists (code, first). split; [left | reflexivity].
        + apply list_elem_of_fmap in Hin as (series & -> & Hin).
          exists series. split; [right; exact Hin | reflexivity].
      - intros (series & Hin & <-). apply elem_of_cons in Hin as [->|Hin].
        + left.
        + right. apply list_elem_of_fmap. eauto. }
    assert (Hreports :
      reports (LogDefaultDate (TS m)
               :: run_selectors g (TS m) ((code, first) :: rest) cfgs)
      = omap (report_of (TS m) ((code, first) :: rest)) cfgs).
    { change (reports (LogDefaultDate ?t :: ?l)) with (reports l).
      apply reports_run_selectors. }
    exists m. split; [|split; [|split; [|split]]].
    + apply Hmember in Hdf as (series & Hin & <-). eauto.
    + intros series t Hin Ht. apply (Hle (snd series)); [|exact Ht].
      apply Hmember. eauto.
    + unfold main. rewrite Hmax. reflexivity.
    + exact Hreports.
    + rewrite Hreports. apply report_of_date.
  - intros Hempty.
    assert (Hall : Forall (fun x => x <> Stamp NaT)
                     (series_max first :: map series_max (map snd rest))).
    { change (Forall (fun x => x <> Stamp NaT)
                (map series_max (map snd ((code, first) :: rest)))).
      apply Forall_forall. intros x Hx.
      apply list_elem_of_fmap in Hx as (frame & -> & Hframe).
      apply list_elem_of_fmap in Hframe as (series & -> & Hin).
      rewrite Forall_forall in Hdated.
      apply dated_series_max, (Hdated series Hin). }
    assert (Hnan : FloatNaN
                   ∈ series_max first :: map series_max (map snd rest)).
    { change (FloatNaN ∈ map series_max (map snd ((code, first) :: rest))).
      apply Exists_exists in Hempty as (series & Hin & Hnil).
      apply list_elem_of_fmap. exists (snd series).
      split; [rewrite Hnil; reflexivity|].
      apply list_elem_of_fmap. eauto. }
    unfold main, Select.latest_date.
    destruct (builtin_max_nan _ _ Hall Hnan) as [[e ->] | ->];
      eexists; reflexivity.
Qed.

Lemma default_trade_date_is_latest_bar_date_witness :
  exists m,
    (exists series, series ∈ Sample.two_series
                    /\ m ∈ valid_dates (snd series))
    /\ (forall series t, series ∈ Sample.two_series ->
          t ∈ valid_dates (snd series) -> (t <= m)%Z)
    /\ main (SM := Sample.the_module) (PI := Sample.interpreter)
         Sample.no_date (Sample.client "A") None Sample.two_series
         [Sample.good_cfg]
       = inr (LogDefaultDate (TS m)
              :: run_selectors (SM := Sample.the_module)
                   (PI := Sample.interpreter) (Sample.client "A") (TS m)
                   Sample.two_series [Sample.good_cfg])
    /\ reports (LogDefaultDate (TS m)
                :: run_selectors (SM := Sample.the_module)
                     (PI := Sample.interpreter) (Sample.client "A") (TS m)
                     Sample.two_series [Sample.good_cfg])
       = omap (report_of (SM := Sample.the_module)
                 (PI := Sample.interpreter) (TS m) Sample.two_series)
           [Sample.good_cfg]
    /\ Forall (fun r => snd (fst r) = TS m)
         (reports (LogDefaultDate (TS m)
                   :: run_selectors (SM := Sample.the_module)
                        (PI := Sample.interpreter) (Sample.client "A") (TS m)
                        Sample.two_series [Sample.good_cfg])).
Proof.
  apply (proj1 (proj2 (default_trade_date_is_latest_bar_date
                         (SM := Sample.the_module) (PI := Sample.interpreter)
                         Sample.no_date (Sample.client "A")
                         Sample.two_series [Sample.good_cfg]
                         ltac:(discriminate)
                         ltac:(repeat constructor)))).
  repeat constructor; discriminate.
Defined.

(** The run of the sample universe of two series: the date used and
    reported is 7, the latest of 3, 5, 7 and 2. *)
Example default_trade_date_two_series :
  main (SM := Sample.the_module) (PI := Sample.interpreter) Sample.no_date
    (Sample.client "A") None Sample.two_series [Sample.good_cfg]
  = inr [LogDefaultDate (TS 7);
         LogPicks (VStr "EveryCode") (TS 7) ["000001"; "000002"];
         Log INFO "";
         Log INFO "============== 股票基本信息 ==============";
         Log INFO "股票代码: 000001 (A)";
         Log INFO "所属行业: bank";
         Log INFO "所属地区: SZ";
         Log INFO "上市日期: 19910403";
         Log INFO (dashes 50);
         Log INFO "股票代码: 000002 (A)";
         Log INFO "所属行业: bank";
         Log INFO "所属地区: SZ";
         Log INFO "上市日期: 19910403";
         Log INFO (dashes 50)].
Proof. reflexivity. Qed.

(** Outside the input contract: a first series whose only row has no date
    gives [NaT] as trade date, and a series without rows makes the
    comparison inside [max] raise. *)
Example default_trade_date_undated_first :
  main (SM := Sample.the_module) (PI := Sample.interpreter) Sample.no_date
    (Sample.client "A") None Sample.undated_first []
  = inr [LogDefaultDate NaT].
Proof. reflexivity. Qed.

Example default_trade_date_empty_series :
  main (SM := Sample.the_module) (PI := Sample.interpreter) Sample.no_date
    (Sample.client "A") None [("000001", []); ("000002", [Sample.bar 5])] []
  = inl (Uncaught (TypeError
           "'>' not supported between instances of 'Timestamp' and 'float'")).
Proof. reflexivity. Qed.

(** ** fetch_kline.validate *)

Section ValidateFacts.
Import FetchKline.

Lemma date_le_total (a b : Timestamp) : date_le a b = true \/ date_le b a = true.
Proof.
  destruct a as [|x], b as [|y]; simpl; auto.
  destruct (Z.leb_spec x y), (Z.leb_spec y x); auto; lia.
Qed.

Lemma date_le_trans (a b c : Timestamp) :
  date_le a b = true -> date_le b c = true -> date_le a c = true.
Proof.
  destruct a as [|x], b as [|y], c as [|z]; simpl; try congruence.
  rewrite !Z.leb_le. lia.
Qed.

(** A row survives [drop_duplicates] exactly when it is the first row of
    the frame with its date (and that date was not seen before). *)
Lemma drop_duplicates_from_elem (seen : list Timestamp) (df : DataFrame) (r : row) :
  r ∈ drop_duplicates_from seen df <->
  exists l1 l2, df = l1 ++ (r :: l2) /\ (date r ∉ seen)
                /\ forall r', r' ∈ l1 -> date r' <> date r.
Proof.
  revert seen. induction df as [|x rest IH]; intros seen; simpl.
  - split.
    + intros Hin. inversion Hin.
    + intros (l1 & l2 & Heq & _). destruct l1; discriminate.
  - destruct (bool_decide_reflect (date x ∈ seen)) as [Hseen|Hnew].
    + rewrite IH. split.
      * intros (l1 & l2 & -> & Hr & Hl1). exists (x :: l1), l2.
        repeat split; auto. intros r' Hr'.
        apply elem_of_cons in Hr' as [->|Hr']; [congruence | auto].
      * intros (l1 & l2 & Heq & Hr & Hl1). destruct l1 as [|y l1].
        -- injection Heq as -> ->. contradiction.
        -- injection Heq as -> ->. exists l1, l2. repeat split; auto.
           intros r' Hr'. apply Hl1. right. exact Hr'.
    + rewrite elem_of_cons, IH. split.
      * intros [->|(l1 & l2 & -> & Hr & Hl1)].
        -- exists [], rest. repeat split; auto. intros r' Hr'. inversion Hr'.
        -- exists (x :: l1), l2. rewrite not_elem_of_cons in Hr.
           destruct Hr as [Hne Hr]. repeat split; auto.
           intros r' Hr'.
           apply elem_of_cons in Hr' as [->|Hr']; [congruence | auto].
      * intros (l1 & l2 & Heq & Hr & Hl1). destruct l1 as [|y l1].
        -- injection Heq as -> ->. left. reflexivity.
        -- injection Heq as -> ->. right. exists l1, l2.
           repeat split; auto.
           ++ rewrite not_elem_of_cons. split; [|exact Hr].
              intros Heq. apply (Hl1 y); [left | congruence].
           ++ intros r' Hr'. apply Hl1. right. exact Hr'.
Qed.

Lemma drop_duplicates_from_NoDup (seen : list Timestamp) (df : DataFrame) :
  NoDup (map date (drop_duplicates_from seen df)).
Proof.
  revert seen. induction df as [|x rest IH]; intros seen; simpl.
  - constructor.
  - destruct (bool_decide_reflect (date x ∈ seen)) as [Hseen|Hnew]; [apply IH|].
    simpl. constructor; [|apply IH].
    intros Hin. apply list_elem_of_fmap in Hin as (r & Hdate & Hr).
    apply drop_duplicates_from_elem in Hr as (_ & _ & _ & Hr & _).
    apply Hr. rewrite <- Hdate. left.
Qed.

(** Every date of the frame is still present after [drop_duplicates]. *)
Lemma drop_duplicates_from_keeps_dates (seen : list Timestamp) (df : DataFrame)
    (r : row) :
  r ∈ df -> date r ∉ seen ->
  exists r', r' ∈ drop_duplicates_from seen df /\ date r' = date r.
Proof.
  revert seen. induction df as [|x rest IH]; intros seen Hin Hr; simpl.
  - inversion Hin.
  - destruct (bool_decide_reflect (date x ∈ seen)) as [Hseen|Hnew].
    + apply elem_of_cons in Hin as [->|Hin]; [contradiction|].
      apply IH; auto.
    + destruct (decide (date r = date x)) as [Heq|Hne].
      * exists x. split; [left | congruence].
      * apply elem_of_cons in Hin as [->|Hin]; [congruence|].
        destruct (IH (date x :: seen) Hin) as (r' & Hr' & Hd).
        { rewrite not_elem_of_cons. auto. }
        exists r'. split; [right; exact Hr' | exact Hd].
Qed.

Lemma insert_row_Permutation (r : row) (df : DataFrame) :
  insert_row r df ≡ₚ r :: df.
Proof.
  induction df as [|x rest IH]; simpl; [reflexivity|].
  destruct (date_le (date r) (date x)); [reflexivity|].
  rewrite IH. apply Permutation_swap.
Qed.

Lemma sort_values_Permutation (df : DataFrame) : sort_values df ≡ₚ df.
Proof.
  induction df as [|x rest IH]; simpl; [reflexivity|].
  rewrite insert_row_Permutation, IH. reflexivity.
Qed.

Lemma insert_row_sorted (r : row) (df : DataFrame) :
  StronglySorted row_le df -> StronglySorted row_le (insert_row r df).
Proof.
  induction 1 as [|x rest Hsorted IH Hall]; simpl.
  - repeat constructor.
  - destruct (date_le (date r) (date x)) eqn:Hle.
    + constructor; [constructor; assumption|].
      constructor; [exact Hle|].
      eapply Forall_impl; [exact Hall|]. intros y Hy.
      exact (date_le_trans _ _ _ Hle Hy).
    + constructor; [exact IH|].
      rewrite insert_row_Permutation. constructor; [|exact Hall].
      destruct (date_le_total (date r) (date x)) as [Hrx|Hxr];
        [congruence | exact Hxr].
Qed.

Lemma sort_values_sorted (df : DataFrame) : StronglySorted row_le (sort_values df).
Proof.
  induction df as [|x rest IH]; simpl; [constructor|].
  apply insert_row_sorted, IH.
Qed.

(** Rows in date order with pairwise different, non-missing dates have
    strictly increasing dates. *)
Lemma sorted_distinct_dates_increase (df : DataFrame) :
  StronglySorted row_le df ->
  NoDup (map date df) ->
  Forall (fun r => isna (date r) = false) df ->
  map date df = map TS (valid_dates df)
  /\ StronglySorted Z.lt (valid_dates df).
Proof.
  induction 1 as [|x rest Hsorted IH Hall]; intros Hnodup Hdated.
  - split; [reflexivity | constructor].
  - apply NoDup_cons in Hnodup as [Hx Hnodup].
    apply Forall_cons in Hdated as [Hxd Hdated].
    destruct (IH Hnodup Hdated) as [Hmap Hinc].
    unfold valid_dates in *. simpl.
    destruct (date x) as [|t] eqn:Hdate; [discriminate|]. simpl.
    split; [rewrite Hmap; reflexivity|].
    constructor; [exact Hinc|].
    apply Forall_forall. intros u Hu.
    assert (Hin : TS u ∈ map date rest).
    { rewrite Hmap. apply list_elem_of_fmap. eauto. }
    apply list_elem_of_fmap in Hin as (r & Hr & Hrin).
    rewrite Forall_forall in Hall. specialize (Hall r Hrin).
    unfold row_le in Hall. rewrite Hdate, <- Hr in Hall. simpl in Hall.
    apply Z.leb_le in Hall.
    assert (t <> u); [|lia].
    intros ->. apply Hx. rewrite Hr. apply list_elem_of_fmap. eauto.
Qed.

Lemma existsb_elem_of {A : Type} (f : A -> bool) (l : list A) :
  existsb f l = true <-> exists x, x ∈ l /\ f x = true.
Proof.
  rewrite existsb_exists. split; intros (x & Hx & Hf); exists x;
    (split; [apply list_elem_of_In; exact Hx | exact Hf]).
Qed.

Lemma existsb_false_Forall {A : Type} (f : A -> bool) (l : list A) :
  existsb f l = false -> Forall (fun x => f x = false) l.
Proof.
  induction l as [|x l IH]; simpl; [constructor|].
  intros Hf. apply orb_false_elim in Hf as [Hx Hl]. constructor; auto.
Qed.

End ValidateFacts.

Lemma cleaned_elem (df : DataFrame) (r : row) :
  r ∈ FetchKline.sort_values (FetchKline.drop_duplicates df) <->
  exists l1 l2, df = l1 ++ (r :: l2) /\ forall r', r' ∈ l1 -> date r' <> date r.
Proof.
  rewrite sort_values_Permutation. unfold FetchKline.drop_duplicates.
  rewrite drop_duplicates_from_elem. split.
  - intros (l1 & l2 & Heq & _ & Hl1). eauto.
  - intros (l1 & l2 & Heq & Hl1). exists l1, l2. repeat split; auto.
    intros Hin. inversion Hin.
Qed.

Lemma cleaned_keeps_dates (df : DataFrame) (r : row) :
  r ∈ df ->
  exists r', r' ∈ FetchKline.sort_values (FetchKline.drop_duplicates df)
             /\ date r' = date r.
Proof.
  intros Hin.
  destruct (drop_duplicates_from_keeps_dates [] df r Hin) as (r' & Hr' & Hd).
  { intros Hnil. inversion Hnil. }
  exists r'. split; [|exact Hd].
  rewrite sort_values_Permutation. exact Hr'.
Qed.

Lemma cleaned_subset (df : DataFrame) (r : row) :
  r ∈ FetchKline.sort_values (FetchKline.drop_duplicates df) -> r ∈ df.
Proof.
  rewrite cleaned_elem. intros (l1 & l2 & -> & _).
  apply elem_of_app. right. left.
Qed.

(** C5. When [validate] returns, the frame returned holds exactly the
    first row of the input for each date, in date order, its dates are
    all present, strictly increasing (hence unique) and not later than
    today. [validate] raises if and only if some row of the input has a
    missing date or a date later than today. *)
Theorem validate_cleans_or_raises (today : Z) (df : DataFrame) :
  (forall out, FetchKline.validate today df = inr out ->
     out ≡ₚ FetchKline.drop_duplicates df
     /\ (forall r, r ∈ out <->
           exists l1 l2, df = l1 ++ (r :: l2)
                         /\ forall r', r' ∈ l1 -> date r' <> date r)
     /\ StronglySorted row_le out
     /\ map date out = map TS (valid_dates out)
     /\ StronglySorted Z.lt (valid_dates out)
     /\ Forall (fun t => (t <= today)%Z) (valid_dates out))
  /\ ((exists e, FetchKline.validate today df = inl e) <->
      (exists r, r ∈ df /\ date r = NaT)
      \/ (exists r t, r ∈ df /\ date r = TS t /\ (today < t)%Z)).
Proof.
  unfold FetchKline.validate.
  set (out' := FetchKline.sort_values (FetchKline.drop_duplicates df)).
  split.
  - intros out.
    destruct (existsb (fun r => isna (date r)) out') eqn:Hna; [discriminate|].
    destruct (existsb (fun r => ts_gt (date r) (TS today)) out') eqn:Hfut;
      [discriminate|].
    intros [= <-].
    assert (Hnodup : NoDup (map date out')).
    { assert (Hperm : map date out' ≡ₚ map date (FetchKline.drop_duplicates df))
        by apply Permutation_map, sort_values_Permutation.
      rewrite Hperm. apply (drop_duplicates_from_NoDup [] df). }
    destruct (sorted_distinct_dates_increase out'
                (sort_values_sorted _) Hnodup (existsb_false_Forall _ _ Hna))
      as [Hmap Hinc].
    split; [apply sort_values_Permutation|].
    split; [intros r; apply cleaned_elem|].
    split; [apply sort_values_sorted|].
    split; [exact Hmap|]. split; [exact Hinc|].
    apply Forall_forall. intros t Ht.
    assert (Hin : TS t ∈ map date out').
    { rewrite Hmap. apply list_elem_of_fmap. eauto. }
    apply list_elem_of_fmap in Hin as (r & Hr & Hrin).
    apply existsb_false_Forall in Hfut. rewrite Forall_forall in Hfut.
    specialize (Hfut r Hrin). simpl in Hfut. rewrite <- Hr in Hfut.
    simpl in Hfut. apply Z.ltb_ge in Hfut. exact Hfut.
  - split.
    + intros [e He].
      destruct (existsb (fun r => isna (date r)) out') eqn:Hna.
      * apply existsb_elem_of in Hna as (r & Hr & Hisna). left.
        exists r. split; [apply cleaned_subset; exact Hr|].
        destruct (date r); [reflexivity | discriminate].
      * destruct (existsb (fun r => ts_gt (date r) (TS today)) out') eqn:Hfut;
          [|discriminate].
        apply existsb_elem_of in Hfut as (r & Hr & Hgt). right.
        destruct (date r) as [|t] eqn:Hdate; [discriminate|].
        exists r, t. split; [apply cleaned_subset; exact Hr|].
        split; [exact Hdate|]. simpl in Hgt. apply Z.ltb_lt in Hgt. exact Hgt.
    + intros [(r & Hr & Hdate)|(r & t & Hr & Hdate & Hlt)].
      * destruct (cleaned_keeps_dates df r Hr) as (r' & Hr' & Hd).
        assert (Hna : existsb (fun r => isna (date r)) out' = true).
        { apply existsb_elem_of. exists r'. split; [exact Hr'|].
          rewrite Hd, Hdate. reflexivity. }
        rewrite Hna. eexists. reflexivity.
      * destruct (cleaned_keeps_dates df r Hr) as (r' & Hr' & Hd).
        assert (Hfut : existsb (fun r => ts_gt (date r) (TS today)) out' = true).
        { apply existsb_elem_of. exists r'. split; [exact Hr'|].
          rewrite Hd, Hdate. simpl. apply Z.ltb_lt. exact Hlt. }
        rewrite Hfut.
        destruct (existsb (fun r => isna (date r)) out'); eexists; reflexivity.
Qed.

Lemma validate_cleans_or_raises_witness :
  let df := [Sample.bar 3; Sample.bar 1;
             Row (TS 3) None None None None None; Sample.bar 2] in
  let out := [Sample.bar 1; Sample.bar 2; Sample.bar 3] in
  out ≡ₚ FetchKline.drop_duplicates df
  /\ StronglySorted Z.lt (valid_dates out)
  /\ Forall (fun t => (t <= 10)%Z) (valid_dates out).
Proof.
  intros df out.
  destruct (proj1 (validate_cleans_or_raises 10 df) out eq_refl)
    as (Hperm & _ & _ & _ & Hinc & Hpast).
  split; [exact Hperm|]. split; [exact Hinc | exact Hpast].
Defined.

Example validate_missing_date :
  FetchKline.validate 10 [Sample.bar 1; Sample.undated]
  = inl (ValueError "存在缺失日期！").
Proof. reflexivity. Qed.

Example validate_future_date :
  FetchKline.validate 10 [Sample.bar 11; Sample.bar 1]
  = inl (ValueError "数据包含未来日期，可能抓取错误！").
Proof. reflexivity. Qed.

(** ** _to_ts_code *)

Open Scope string_scope.

Lemma append_empty_r (s : string) : s ++ "" = s.
Proof.
  induction s as [|c s IH]; [reflexivity|].
  change (String c (s ++ "") = String c s). rewrite IH. reflexivity.
Qed.

Lemma zfill_unsigned (s : string) (width : nat) :
  signed s = false -> Select.zfill s width = left_pad s width.
Proof.
  intros Hs. unfold Select.zfill, left_pad.
  destruct (width - String.length s)%nat as [|fill] eqn:Hfill; [reflexivity|].
  destruct s as [|c rest].
  - rewrite append_empty_r. reflexivity.
  - simpl in Hs. rewrite Hs. reflexivity.
Qed.

Lemma zfill_long (s : string) (width : nat) :
  (width <= String.length s)%nat -> Select.zfill s width = left_pad s width.
Proof.
  intros Hlen. unfold Select.zfill, left_pad.
  replace (width - String.length s)%nat with 0%nat by lia. reflexivity.
Qed.

(** C10, as amended. The two [_to_ts_code] functions agree on every
    string: both return [code.zfill(6)] followed by [".SH"] when the code
    starts with "60", "68" or "9" and by [".SZ"] otherwise. For a code that
    does not begin with a sign character, or that has six characters or
    more, this is the code padded on the left with zeros to six
    characters, followed by the suffix. *)
Theorem to_ts_code_implementations_agree (code : string) :
  Select._to_ts_code code = FetchKline._to_ts_code code
  /\ Select._to_ts_code code
     = Select.zfill code 6 ++
       (if (String.prefix "60" code || String.prefix "68" code
            || String.prefix "9" code)%bool
        then ".SH" else ".SZ")
  /\ (signed code = false \/ (6 <= String.length code)%nat ->
        Select._to_ts_code code = to_ts_code_described code
        /\ FetchKline._to_ts_code code = to_ts_code_described code).
Proof.
  assert (Hshape : Select._to_ts_code code
     = Select.zfill code 6 ++
       (if (String.prefix "60" code || String.prefix "68" code
            || String.prefix "9" code)%bool
        then ".SH" else ".SZ")).
  { unfold Select._to_ts_code, Select.startswith_any. simpl.
    destruct (String.prefix "60" code), (String.prefix "68" code),
      (String.prefix "9" code); reflexivity. }
  split; [reflexivity|]. split; [exact Hshape|].
  intros Hcode.
  assert (Hpad : Select.zfill code 6 = left_pad code 6).
  { destruct Hcode; [apply zfill_unsigned | apply zfill_long]; assumption. }
  change (FetchKline._to_ts_code code) with (Select._to_ts_code code).
  rewrite Hshape, Hpad. split; reflexivity.
Qed.

Lemma to_ts_code_implementations_agree_witness :
  Select._to_ts_code "1" = to_ts_code_described "1"
  /\ FetchKline._to_ts_code "1" = to_ts_code_described "1".
Proof.
  apply (proj2 (proj2 (to_ts_code_implementations_agree "1"))).
  left. reflexivity.
Defined.

(** C10, as stated, fails on a code that begins with a sign: [zfill] keeps
    the sign in front of the zeros, so the result is not the code padded
    on the left. *)
Lemma to_ts_code_keeps_sign_in_front :
  Select._to_ts_code "-1" = "-00001.SZ"
  /\ FetchKline._to_ts_code "-1" = "-00001.SZ"
  /\ to_ts_code_described "-1" = "0000-1.SZ"
  /\ Select._to_ts_code "-1" <> to_ts_code_described "-1".
Proof.
  repeat split; try reflexivity. intros Heq. vm_compute in Heq. discriminate Heq.
Qed.

Example to_ts_code_shanghai : Select._to_ts_code "600000" = "600000.SH".
Proof. reflexivity. Qed.

Example to_ts_code_shenzhen : FetchKline._to_ts_code "1" = "000001.SZ".
Proof. reflexivity. Qed.

(** ** The RSV indicator *)

Section IndicatorFacts.
Import Indicator.
Local Open Scope list_scope.

Lemma fold_left_Qmin_le (xs : list Q) (x : Q) :
  (fold_left Qmin xs x <= x)%Q
  /\ forall y, y ∈ xs -> (fold_left Qmin xs x <= y)%Q.
Proof.
  revert x. induction xs as [|z xs IH]; intros x; simpl.
  - split; [apply Qle_refl|]. intros y Hy. inversion Hy.
  - destruct (IH (Qmin x z)) as [Hacc Hall]. split.
    + eapply Qle_trans; [exact Hacc | apply Q.le_min_l].
    + intros y Hy. apply elem_of_cons in Hy as [->|Hy]; [|auto].
      eapply Qle_trans; [exact Hacc | apply Q.le_min_r].
Qed.

Lemma fold_left_Qmax_ge (xs : list Q) (x : Q) :
  (x <= fold_left Qmax xs x)%Q
  /\ forall y, y ∈ xs -> (y <= fold_left Qmax xs x)%Q.
Proof.
  revert x. induction xs as [|z xs IH]; intros x; simpl.
  - split; [apply Qle_refl|]. intros y Hy. inversion Hy.
  - destruct (IH (Qmax x z)) as [Hacc Hall]. split.
    + eapply Qle_trans; [apply Q.le_max_l | exact Hacc].
    + intros y Hy. apply elem_of_cons in Hy as [->|Hy]; [|auto].
      eapply Qle_trans; [apply Q.le_max_r | exact Hacc].
Qed.

Lemma fold_left_Qmin_elem (xs : list Q) (x : Q) : fold_left Qmin xs x ∈ x :: xs.
Proof.
  revert x. induction xs as [|z xs IH]; intros x; simpl; [left|].
  specialize (IH (Qmin x z)). apply elem_of_cons in IH as [->|IH].
  - unfold Qmin, GenericMinMax.gmin.
    destruct (x ?= z)%Q; [left | left | right; left].
  - right. right. exact IH.
Qed.

Lemma fold_left_Qmax_elem (xs : list Q) (x : Q) : fold_left Qmax xs x ∈ x :: xs.
Proof.
  revert x. induction xs as [|z xs IH]; intros x; simpl; [left|].
  specialize (IH (Qmax x z)). apply elem_of_cons in IH as [->|IH].
  - unfold Qmax, GenericMinMax.gmax.
    destruct (x ?= z)%Q; [left | right; left | left].
  - right. right. exact IH.
Qed.

(** [min_list] and [max_list] return the least and the greatest entry. *)
Lemma min_list_spec (l : list Q) (lo : Q) :
  min_list l = Some lo -> lo ∈ l /\ forall y, y ∈ l -> (lo <= y)%Q.
Proof.
  destruct l as [|x xs]; [discriminate|]. intros [= <-].
  split; [apply fold_left_Qmin_elem|].
  destruct (fold_left_Qmin_le xs x) as [Hx Hxs].
  intros y Hy. apply elem_of_cons in Hy as [->|Hy]; auto.
Qed.

Lemma max_list_spec (l : list Q) (hi : Q) :
  max_list l = Some hi -> hi ∈ l /\ forall y, y ∈ l -> (y <= hi)%Q.
Proof.
  destruct l as [|x xs]; [discriminate|]. intros [= <-].
  split; [apply fold_left_Qmax_elem|].
  destruct (fold_left_Qmax_ge xs x) as [Hx Hxs].
  intros y Hy. apply elem_of_cons in Hy as [->|Hy]; auto.
Qed.

(** The trailing window ending at [i] holds the entry at [i]. *)
Lemma trailing_last (xs : list Q) (n i : nat) (x : Q) :
  (1 <= n)%nat -> (n <= i + 1)%nat -> xs !! i = Some x -> x ∈ trailing xs n i.
Proof.
  intros Hn Hi Hx. unfold trailing.
  apply list_elem_of_lookup. exists (n - 1)%nat.
  rewrite lookup_take_lt by lia. rewrite lookup_drop.
  replace (i + 1 - n + (n - 1))%nat with i by lia. exact Hx.
Qed.

Lemma trailing_nonempty (xs : list Q) (n i : nat) (x : Q) :
  (1 <= n)%nat -> (n <= i + 1)%nat -> xs !! i = Some x ->
  trailing xs n i <> [].
Proof.
  intros Hn Hi Hx Hnil.
  pose proof (trailing_last xs n i x Hn Hi Hx) as Hin.
  rewrite Hnil in Hin. inversion Hin.
Qed.

Lemma rolling_defined (agg : list Q -> option Q) (xs : list Q) (n i : nat) :
  (n <= i + 1)%nat -> (i < length xs)%nat ->
  rolling agg xs n i = agg (trailing xs n i).
Proof.
  intros Hn Hi. unfold rolling.
  destruct (Nat.leb_spec n (i + 1)); [|lia].
  destruct (Nat.ltb_spec i (length xs)); [|lia]. reflexivity.
Qed.

Lemma rolling_short (agg : list Q -> option Q) (xs : list Q) (n i : nat) :
  (i + 1 < n)%nat -> rolling agg xs n i = None.
Proof.
  intros Hn. unfold rolling.
  destruct (Nat.leb_spec n (i + 1)); [lia | reflexivity].
Qed.

Lemma compute_rsv_lookup (series : list Bar) (n i : nat) :
  (i < length series)%nat ->
  compute_rsv series n !! i = Some (rsv_at series n i).
Proof.
  intros Hi. unfold compute_rsv.
  change (map (rsv_at series n) (seq 0 (length series)))
    with (rsv_at series n <$> seq 0 (length series)).
  rewrite list_lookup_fmap, lookup_seq_lt by exact Hi. reflexivity.
Qed.

Lemma scaled_ratio_bounds (a d : Q) :
  (0 <= a)%Q -> (a <= d)%Q -> (0 < d)%Q ->
  (0 <= a / d * 100 /\ a / d * 100 <= 100)%Q.
Proof.
  intros Ha Had Hd.
  assert (H0 : (0 <= a / d)%Q).
  { apply Qle_shift_div_l; [exact Hd|]. lra. }
  assert (H1 : (a / d <= 1)%Q).
  { apply Qle_shift_div_r; [exact Hd|]. lra. }
  split; lra.
Qed.

End IndicatorFacts.

(** C7. On a series of bars that satisfy the bar invariant,
    [compute_rsv series n] is aligned with the series and, at every index
    [i] of the series: for [i < n - 1] (and for a window of width 0) the
    entry is undefined; for [1 <= n <= i + 1] the rolling low and high over
    the trailing [n] bars exist, the entry is undefined when they are
    equal, and otherwise it is
    [(close[i] - low) / (high - low) * 100] and lies in [0, 100]. No case
    raises: the function is total. *)
Theorem compute_rsv_formula_and_range
    (series : list Indicator.Bar) (n i : nat) (b : Indicator.Bar) :
  Forall Indicator.Bar_invariant series ->
  series !! i = Some b ->
  length (Indicator.compute_rsv series n) = length series
  /\ ((i + 1 < n)%nat \/ n = 0%nat ->
        Indicator.compute_rsv series n !! i = Some None)
  /\ ((1 <= n)%nat -> (n <= i + 1)%nat ->
        exists lo hi,
          Indicator.rolling_min series n i = Some lo
          /\ Indicator.rolling_max series n i = Some hi
          /\ Indicator.min_list
               (Indicator.trailing (map Indicator.bar_low series) n i) = Some lo
          /\ Indicator.max_list
               (Indicator.trailing (map Indicator.bar_high series) n i) = Some hi
          /\ ((hi == lo)%Q -> Indicator.compute_rsv series n !! i = Some None)
          /\ (~ (hi == lo)%Q ->
                Indicator.compute_rsv series n !! i
                = Some (Some ((Indicator.bar_close b - lo) / (hi - lo) * 100)%Q)
                /\ (0 <= (Indicator.bar_close b - lo) / (hi - lo) * 100)%Q
                /\ ((Indicator.bar_close b - lo) / (hi - lo) * 100 <= 100)%Q)).
Proof.
  intros Hinv Hb.
  assert (Hi : (i < length series)%nat) by (eapply lookup_lt_Some; exact Hb).
  assert (Hlow : map Indicator.bar_low series !! i = Some (Indicator.bar_low b)).
  { change (map Indicator.bar_low series) with (Indicator.bar_low <$> series).
    rewrite list_lookup_fmap, Hb. reflexivity. }
  assert (Hhigh : map Indicator.bar_high series !! i = Some (Indicator.bar_high b)).
  { change (map Indicator.bar_high series) with (Indicator.bar_high <$> series).
    rewrite list_lookup_fmap, Hb. reflexivity. }
  split; [|split].
  - unfold Indicator.compute_rsv. rewrite length_map, length_seq. reflexivity.
  - intros Hshort. rewrite compute_rsv_lookup by exact Hi. f_equal.
    unfold Indicator.rsv_at, Indicator.rolling_min. rewrite Hb.
    destruct Hshort as [Hshort| ->].
    + rewrite rolling_short by exact Hshort. reflexivity.
    + unfold Indicator.rolling, Indicator.trailing. simpl.
      destruct (i <? length (map Indicator.bar_low series))%nat; reflexivity.
  - intros Hn Hwin.
    assert (Hlen_low : (i < length (map Indicator.bar_low series))%nat)
      by (rewrite length_map; exact Hi).
    assert (Hlen_high : (i < length (map Indicator.bar_high series))%nat)
      by (rewrite length_map; exact Hi).
    destruct (Indicator.min_list
                (Indicator.trailing (map Indicator.bar_low series) n i))
      as [lo|] eqn:Hlo.
    2:{ exfalso. apply (trailing_nonempty _ n i _ Hn Hwin Hlow).
        destruct (Indicator.trailing (map Indicator.bar_low series) n i);
          [reflexivity | discriminate]. }
    destruct (Indicator.max_list
                (Indicator.trailing (map Indicator.bar_high series) n i))
      as [hi|] eqn:Hhi.
    2:{ exfalso. apply (trailing_nonempty _ n i _ Hn Hwin Hhigh).
        destruct (Indicator.trailing (map Indicator.bar_high series) n i);
          [reflexivity | discriminate]. }
    assert (Hrmin : Indicator.rolling_min series n i = Some lo).
    { unfold Indicator.rolling_min. rewrite rolling_defined by assumption.
      exact Hlo. }
    assert (Hrmax : Indicator.rolling_max series n i = Some hi).
    { unfold Indicator.rolling_max. rewrite rolling_defined by assumption.
      exact Hhi. }
    exists lo, hi.
    split; [exact Hrmin|]. split; [exact Hrmax|].
    split; [reflexivity|]. split; [reflexivity|].
    rewrite compute_rsv_lookup by exact Hi.
    unfold Indicator.rsv_at. rewrite Hb, Hrmin, Hrmax. split.
    + intros Heq. apply Qeq_eq_bool in Heq. rewrite Heq. reflexivity.
    + intros Hne.
      destruct (Qeq_bool hi lo) eqn:Hbool;
        [apply Qeq_bool_eq in Hbool; contradiction|].
      split; [reflexivity|].
      apply min_list_spec in Hlo as [_ Hlo].
      apply max_list_spec in Hhi as [_ Hhi].
      specialize (Hlo _ (trailing_last _ _ _ _ Hn Hwin Hlow)).
      specialize (Hhi _ (trailing_last _ _ _ _ Hn Hwin Hhigh)).
      rewrite Forall_forall in Hinv.
      destruct (Hinv b) as (_ & Hch & _ & _ & Hlc & _).
      { eapply list_elem_of_lookup_2. exact Hb. }
      apply scaled_ratio_bounds; [lra | lra |].
      assert (Hle : (lo <= hi)%Q) by lra.
      apply Qle_lt_or_eq in Hle as [Hlt|Heq]; [lra|].
      exfalso. apply Hne. symmetry. exact Heq.
Qed.

Lemma rising_bars_invariant : Forall Indicator.Bar_invariant Sample.rising.
Proof.
  repeat constructor; simpl; unfold Qle; simpl; lia.
Defined.

Lemma compute_rsv_formula_and_range_witness :
  exists lo hi,
    Indicator.rolling_min Sample.rising 2 2 = Some lo
    /\ Indicator.rolling_max Sample.rising 2 2 = Some hi
    /\ Indicator.min_list
         (Indicator.trailing (map Indicator.bar_low Sample.rising) 2 2) = Some lo
    /\ Indicator.max_list
         (Indicator.trailing (map Indicator.bar_high Sample.rising) 2 2) = Some hi
    /\ ((hi == lo)%Q -> Indicator.compute_rsv Sample.rising 2 !! 2%nat = Some None)
    /\ (~ (hi == lo)%Q ->
          Indicator.compute_rsv Sample.rising 2 !! 2%nat
          = Some (Some ((13 - lo) / (hi - lo) * 100)%Q)
          /\ (0 <= (13 - lo) / (hi - lo) * 100)%Q
          /\ ((13 - lo) / (hi - lo) * 100 <= 100)%Q).
Proof.
  apply (proj2 (proj2 (compute_rsv_formula_and_range Sample.rising 2 2
                         (Indicator.MkBar 3 12 14 11 13 100)
                         rising_bars_invariant eq_refl))); lia.
Defined.

Example compute_rsv_rising :
  Indicator.compute_rsv Sample.rising 2
  = [None; Some ((12 - 9) / (13 - 9) * 100)%Q;
     Some ((13 - 10) / (14 - 10) * 100)%Q].
Proof. reflexivity. Qed.

Example compute_rsv_flat :
  Indicator.compute_rsv Sample.flat 1 = [None; None].
Proof. reflexivity. Qed.


(* ===================================================================== *)
(** * Further properties of the code *)
(* ===================================================================== *)

Open Scope list_scope.

(** ** Keeping first occurrences *)

Section FirstOccurrences.
Context {A K : Type} `{EqDecision K} (key : A -> K).

Lemma first_occurrences_elem (seen : list K) (l : list A) (x : A) :
  x ∈ first_occurrences key seen l <->
  exists l1 l2, l = l1 ++ (x :: l2) /\ (key x ∉ seen)
                /\ forall y, y ∈ l1 -> key y <> key x.
Proof.
  revert seen. induction l as [|a rest IH]; intros seen; simpl.
  - split.
    + intros Hin. inversion Hin.
    + intros (l1 & l2 & Heq & _). destruct l1; discriminate.
  - destruct (bool_decide_reflect (key a ∈ seen)) as [Hseen|Hnew].
    + rewrite IH. split.
      * intros (l1 & l2 & -> & Hx & Hl1). exists (a :: l1), l2.
        repeat split; auto. intros y Hy.
        apply elem_of_cons in Hy as [->|Hy]; [congruence | auto].
      * intros (l1 & l2 & Heq & Hx & Hl1). destruct l1 as [|b l1].
        -- injection Heq as -> ->. contradiction.
        -- injection Heq as -> ->. exists l1, l2. repeat split; auto.
           intros y Hy. apply Hl1. right. exact Hy.
    + rewrite elem_of_cons, IH. split.
      * intros [->|(l1 & l2 & -> & Hx & Hl1)].
        -- exists [], rest. repeat split; auto. intros y Hy. inversion Hy.
        -- exists (a :: l1), l2. rewrite not_elem_of_cons in Hx.
           destruct Hx as [Hne Hx]. repeat split; auto.
           intros y Hy.
           apply elem_of_cons in Hy as [->|Hy]; [congruence | auto].
      * intros (l1 & l2 & Heq & Hx & Hl1). destruct l1 as [|b l1].
        -- injection Heq as -> ->. left. reflexivity.
        -- injection Heq as -> ->. right. exists l1, l2.
           repeat split; auto.
           ++ rewrite not_elem_of_cons. split; [|exact Hx].
              intros Heq. apply (Hl1 b); [left | congruence].
           ++ intros y Hy. apply Hl1. right. exact Hy.
Qed.

Lemma first_occurrences_subset (seen : list K) (l : list A) (x : A) :
  x ∈ first_occurrences key seen l -> x ∈ l /\ key x ∉ seen.
Proof.
  rewrite first_occurrences_elem. intros (l1 & l2 & -> & Hx & _).
  split; [|exact Hx]. apply elem_of_app. right. left.
Qed.

Lemma first_occurrences_NoDup (seen : list K) (l : list A) :
  NoDup (map key (first_occurrences key seen l)).
Proof.
  revert seen. induction l as [|a rest IH]; intros seen; simpl.
  - constructor.
  - destruct (bool_decide_reflect (key a ∈ seen)) as [Hseen|Hnew]; [apply IH|].
    simpl. constructor; [|apply IH].
    intros Hin. apply list_elem_of_fmap in Hin as (y & Hkey & Hy).
    apply first_occurrences_subset in Hy as [_ Hy].
    apply Hy. rewrite <- Hkey. left.
Qed.

(** Every key of the list that was not seen before is still represented. *)
Lemma first_occurrences_keeps_keys (seen : list K) (l : list A) (x : A) :
  x ∈ l -> key x ∉ seen ->
  exists y, y ∈ first_occurrences key seen l /\ key y = key x.
Proof.
  revert seen. induction l as [|a rest IH]; intros seen Hin Hx; simpl.
  - inversion Hin.
  - destruct (bool_decide_reflect (key a ∈ seen)) as [Hseen|Hnew].
    + apply elem_of_cons in Hin as [->|Hin]; [contradiction|].
      apply IH; auto.
    + destruct (decide (key x = key a)) as [Heq|Hne].
      * exists a. split; [left | congruence].
      * apply elem_of_cons in Hin as [->|Hin]; [congruence|].
        destruct (IH (key a :: seen) Hin) as (y & Hy & Hk).
        { rewrite not_elem_of_cons. auto. }
        exists y. split; [right; exact Hy | exact Hk].
Qed.

(** Only the set of keys seen matters. *)
Lemma first_occurrences_seen_ext (seen1 seen2 : list K) (l : list A) :
  (forall k, k ∈ seen1 <-> k ∈ seen2) ->
  first_occurrences key seen1 l = first_occurrences key seen2 l.
Proof.
  revert seen1 seen2. induction l as [|a rest IH]; intros seen1 seen2 Hext;
    simpl; [reflexivity|].
  destruct (bool_decide_reflect (key a ∈ seen1)) as [H1|H1];
    destruct (bool_decide_reflect (key a ∈ seen2)) as [H2|H2].
  - apply IH, Hext.
  - exfalso. apply H2, Hext, H1.
  - exfalso. apply H1, Hext, H2.
  - f_equal. apply IH. intros k. rewrite !elem_of_cons, Hext. reflexivity.
Qed.

(** A list whose keys are pairwise different and unseen is left as it is. *)
Lemma first_occurrences_id (seen : list K) (l : list A) :
  NoDup (map key l) -> (forall x, x ∈ l -> key x ∉ seen) ->
  first_occurrences key seen l = l.
Proof.
  revert seen. induction l as [|a rest IH]; intros seen Hnodup Hnew; simpl;
    [reflexivity|].
  apply NoDup_cons in Hnodup as [Ha Hnodup].
  destruct (bool_decide_reflect (key a ∈ seen)) as [Hseen|_].
  - exfalso. apply (Hnew a); [left | exact Hseen].
  - f_equal. apply IH; [exact Hnodup|].
    intros x Hx. rewrite not_elem_of_cons. split.
    + intros Heq. apply Ha. rewrite <- Heq. apply list_elem_of_fmap. eauto.
    + apply Hnew. right. exact Hx.
Qed.

(** The keys kept from a concatenation start with those kept from its
    first part. *)
Lemma first_occurrences_app (seen : list K) (l1 l2 : list A) :
  first_occurrences key seen (l1 ++ l2)
  = first_occurrences key seen l1
    ++ first_occurrences key (rev (map key l1) ++ seen) l2.
Proof.
  revert seen. induction l1 as [|a rest IH]; intros seen; simpl;
    [reflexivity|].
  destruct (bool_decide_reflect (key a ∈ seen)) as [Hseen|Hnew].
  - rewrite IH. f_equal. apply first_occurrences_seen_ext. intros k.
    rewrite !elem_of_app, list_elem_of_singleton. split; [tauto|].
    intros [[Hk| ->]|Hk]; auto.
  - simpl. f_equal. rewrite IH. f_equal.
    apply first_occurrences_seen_ext. intros k.
    rewrite !elem_of_app, elem_of_cons, list_elem_of_singleton. tauto.
Qed.

End FirstOccurrences.

(** ** Loading the configuration *)

(** X1. [config.utils.load_config] never returns an empty configuration.
    It returns the content of the file when that is a list, its
    ["selectors"] member when it is an object that has one, and otherwise
    the content wrapped in a one-element list; the result is always
    truthy. It raises [FileNotFoundError] when the file is missing, passes
    on the error of [json.load], and raises [ValueError] only for an empty
    list or a falsy ["selectors"] member: a single wrapped object is never
    refused, whatever it is. *)
Theorem load_config_never_empty (package_dir : string)
    (fs : ConfigUtils.JsonFiles) (path : string) :
  match ConfigUtils.load_config package_dir fs (Some path) with
  | inr cfgs =>
      truthy cfgs = true
      /\ exists raw, fs path = Some (inr raw)
         /\ match raw with
            | VList _ => cfgs = raw
            | VDict d =>
                match dict_get d "selectors" with
                | Some selectors => cfgs = selectors
                | None => cfgs = VList [raw]
                end
            | _ => cfgs = VList [raw]
            end
  | inl e =>
      (fs path = None /\ exists msg, e = OtherError "FileNotFoundError" msg)
      \/ fs path = Some (inl e)
      \/ exists raw msg,
           fs path = Some (inr raw) /\ e = ValueError msg
           /\ (raw = VList []
               \/ exists d selectors,
                    raw = VDict d /\ dict_get d "selectors" = Some selectors
                    /\ truthy selectors = false)
  end.
Proof.
  unfold ConfigUtils.load_config.
  destruct (fs path) as [[e|raw]|] eqn:Hfs.
  - right. left. reflexivity.
  - destruct raw as [| b | n | q | str | l | d].
    1-5: (cbn; split; [reflexivity|]; eexists; split; reflexivity).
    + destruct l as [|x l].
      * cbn. right. right. eexists _, _.
        split; [reflexivity|]. split; [reflexivity|]. left. reflexivity.
      * cbn. split; [reflexivity|]. eexists. split; reflexivity.
    + destruct (dict_get d "selectors") as [selectors|] eqn:Hsel.
      * destruct (truthy selectors) eqn:Htruthy; cbn [negb].
        -- split; [exact Htruthy|]. eexists. split; [reflexivity|].
           cbn beta iota. rewrite Hsel. reflexivity.
        -- right. right. eexists _, _.
           split; [reflexivity|]. split; [reflexivity|]. right.
           exists d, selectors. auto.
      * cbn. split; [reflexivity|]. eexists. split; [reflexivity|].
        cbn beta iota. rewrite Hsel. reflexivity.
  - left. split; [reflexivity|]. eexists. reflexivity.
Qed.

(** X2. The fallback loader of select.py, used when [config.utils] cannot
    be imported, returns exactly what [config.utils.load_config] returns,
    logging nothing; where the latter raises because the file is missing
    or defines no selector, the fallback logs one error and exits with
    status 1; an error of [json.load] escapes from both. *)
Theorem fallback_load_config_agrees (package_dir : string)
    (fs : ConfigUtils.JsonFiles) (path : string) :
  match ConfigUtils.load_config package_dir fs (Some path) with
  | inr cfgs =>
      Select.load_config false package_dir fs path = ([], inr cfgs)
  | inl e =>
      match fs path with
      | Some (inl e') =>
          e = e'
          /\ Select.load_config false package_dir fs path = ([], inl (Uncaught e))
      | _ =>
          exists msg,
            Select.load_config false package_dir fs path
            = ([Log ERROR msg], inl (Exit 1))
      end
  end.
Proof.
  unfold ConfigUtils.load_config, Select.load_config.
  destruct (fs path) as [[e|raw]|].
  - split; reflexivity.
  - match goal with
    | |- context [negb (truthy ?c)] => destruct (truthy c)
    end; cbn [negb].
    + reflexivity.
    + eexists. reflexivity.
  - eexists. reflexivity.
Qed.

(** ** load_data *)

Section LoadDataFacts.
Variable sort_values : DataFrame -> DataFrame.
Variable files : string -> option DataFrame.

Lemma existsb_key {V : Type} (d : list (string * V)) (k : string) :
  existsb (fun kv => String.eqb (fst kv) k) d = bool_decide (k ∈ map fst d).
Proof.
  induction d as [|[k' v] d IH]; simpl; [reflexivity|].
  rewrite IH. destruct (String.eqb_spec k' k) as [->|Hne]; simpl.
  - symmetry. apply bool_decide_eq_true. left.
  - apply eq_true_iff_eq. rewrite !bool_decide_eq_true, elem_of_cons.
    split; [auto|]. intros [Heq|Hin]; [congruence | exact Hin].
Qed.

Lemma dict_set_keys {V : Type} (d : list (string * V)) (k : string) (v : V) :
  map fst (dict_set d k v)
  = if bool_decide (k ∈ map fst d) then map fst d else map fst d ++ [k].
Proof.
  unfold dict_set. rewrite existsb_key.
  destruct (bool_decide (k ∈ map fst d)).
  - rewrite map_map. apply map_ext. intros [k' v']. simpl.
    destruct (String.eqb k' k); reflexivity.
  - rewrite map_app. reflexivity.
Qed.

Lemma dict_set_elem {V : Type} (d : list (string * V)) (k : string) (v : V)
    (x : string * V) :
  x ∈ dict_set d k v -> x ∈ d \/ x = (k, v).
Proof.
  unfold dict_set. destruct (existsb _ d).
  - intros Hx. apply list_elem_of_fmap in Hx as ([k' v'] & -> & Hin). simpl.
    destruct (String.eqb_spec k' k) as [->|Hne]; auto.
  - rewrite elem_of_app, list_elem_of_singleton. auto.
Qed.

Lemma load_data_from (codes : list string) (log : list log_record)
    (frames : Universe) :
  map fst (snd (fold_left (Select.load_one sort_values files) codes (log, frames)))
  = map fst frames
    ++ first_occurrences id (map fst frames) (List.filter (has_file files) codes)
  /\ (forall code df,
        (code, df) ∈ snd (fold_left (Select.load_one sort_values files) codes
                            (log, frames)) ->
        (code, df) ∈ frames
        \/ exists raw, files code = Some raw /\ df = sort_values raw)
  /\ fst (fold_left (Select.load_one sort_values files) codes (log, frames))
     = log ++ map (fun c => Log WARNING (path_name (c ++ ".csv") ++ " 不存在，跳过")%string)
                (List.filter (fun c => negb (has_file files c)) codes).
Proof.
  revert log frames. induction codes as [|c codes IH]; intros log frames.
  - simpl. rewrite !app_nil_r. auto.
  - cbn [fold_left List.filter].
    destruct (files c) as [raw|] eqn:Hc.
    + assert (Hhas : has_file files c = true)
        by (unfold has_file; rewrite Hc; reflexivity).
      assert (Hstep : Select.load_one sort_values files (log, frames) c
                      = (log, dict_set frames c (sort_values raw)))
        by (unfold Select.load_one; rewrite Hc; reflexivity).
      rewrite Hhas, Hstep. cbn [negb].
      destruct (IH log (dict_set frames c (sort_values raw))) as (Hk & Hv & Hl).
      split; [|split].
      * etransitivity; [exact Hk|]. rewrite dict_set_keys.
        cbn [first_occurrences id].
        destruct (bool_decide_reflect (c ∈ map fst frames)) as [Hin|Hout];
          [reflexivity|].
        rewrite <- app_assoc. simpl. do 2 f_equal.
        apply first_occurrences_seen_ext. intros k.
        rewrite elem_of_app, !elem_of_cons, elem_of_nil. tauto.
      * intros code df Hin. destruct (Hv code df Hin) as [Hold|Hnew]; [|auto].
        apply dict_set_elem in Hold as [Hold|[= -> ->]]; eauto.
      * exact Hl.
    + assert (Hhas : has_file files c = false)
        by (unfold has_file; rewrite Hc; reflexivity).
      assert (Hstep : Select.load_one sort_values files (log, frames) c
                      = (log ++ [Log WARNING (path_name (c ++ ".csv") ++ " 不存在，跳过")%string],
                         frames))
        by (unfold Select.load_one; rewrite Hc; reflexivity).
      rewrite Hhas, Hstep. cbn [negb].
      destruct (IH (log ++ [Log WARNING (path_name (c ++ ".csv") ++ " 不存在，跳过")%string]) frames)
        as (Hk & Hv & Hl).
      split; [exact Hk|]. split; [exact Hv|].
      rewrite Hl, <- app_assoc. reflexivity.
Qed.

End LoadDataFacts.

(** X3. [load_data] returns one series per code that has a file, keyed by
    the code, in the order in which the codes are first listed and without
    repetition; each series is the sorted content of the code's file; and
    it logs one warning per listed code without a file, in order. *)
Theorem load_data_universe (sort_values : DataFrame -> DataFrame)
    (files : string -> option DataFrame) (codes : list string) :
  map fst (snd (Select.load_data sort_values files codes))
  = first_occurrences id [] (List.filter (has_file files) codes)
  /\ NoDup (map fst (snd (Select.load_data sort_values files codes)))
  /\ (forall code df,
        (code, df) ∈ snd (Select.load_data sort_values files codes) ->
        exists raw, files code = Some raw /\ df = sort_values raw)
  /\ fst (Select.load_data sort_values files codes)
     = map (fun c => Log WARNING (path_name (c ++ ".csv") ++ " 不存在，跳过")%string)
         (List.filter (fun c => negb (has_file files c)) codes).
Proof.
  destruct (load_data_from sort_values files codes [] []) as (Hk & Hv & Hl).
  unfold Select.load_data. simpl in Hk, Hl.
  split; [exact Hk|]. split.
  - enough (Hgen : forall keys : list string,
              keys = first_occurrences id []
                       (List.filter (has_file files) codes) ->
              NoDup keys) by exact (Hgen _ Hk).
    intros keys ->.
    pose proof (first_occurrences_NoDup (@id string) []
                  (List.filter (has_file files) codes)) as Hnodup.
    rewrite map_id in Hnodup. exact Hnodup.
  - split; [|exact Hl].
    intros code df Hin. destruct (Hv code df Hin) as [Hnil|Hraw]; [|exact Hraw].
    inversion Hnil.
Qed.

Lemma load_data_universe_witness :
  exists raw,
    Sample.one_file "000001" = Some raw
    /\ [Sample.bar 1; Sample.bar 2] = FetchKline.sort_values raw.
Proof.
  apply (proj1 (proj2 (proj2 (load_data_universe FetchKline.sort_values
                                Sample.one_file
                                ["000001"; "000009"; "000001"])))).
  left.
Defined.

(** The warning shows the file name alone, also for a code that names a
    file in a directory below the data directory. *)
Example load_data_warns_with_file_name :
  Select.load_data FetchKline.sort_values Sample.one_file
    ["sz/000009"; "000001"; "000007"]
  = ([Log WARNING "000009.csv 不存在，跳过";
      Log WARNING "000007.csv 不存在，跳过"],
     [("000001", [Sample.bar 1; Sample.bar 2])]).
Proof. reflexivity. Qed.

Lemma filter_none {A : Type} (f : A -> bool) (l : list A) :
  (forall x, x ∈ l -> f x = false) -> List.filter f l = [].
Proof.
  induction l as [|a l IH]; intros Hf; simpl; [reflexivity|].
  rewrite (Hf a) by left. apply IH. intros x Hx. apply Hf. right. exact Hx.
Qed.

Lemma filter_all {A : Type} (f : A -> bool) (l : list A) :
  (forall x, x ∈ l -> f x = true) -> List.filter f l = l.
Proof.
  induction l as [|a l IH]; intros Hf; simpl; [reflexivity|].
  rewrite (Hf a) by left. f_equal. apply IH. intros x Hx. apply Hf. right.
  exact Hx.
Qed.

(** X4. When none of the listed codes has a file, [load_data] returns an
    empty universe and [main] ends with exit status 1 before any selector
    is constructed, whatever the configuration. *)
Theorem no_data_file_exits {SM : SelectorModule} {PI : Interpreter}
    (sort_values : DataFrame -> DataFrame) (files : string -> option DataFrame)
    (codes : list string) (to_datetime : string -> exn + Timestamp)
    (g : globals) (args_date : option string)
    (cfgs : list (gmap string value)) :
  (forall c, c ∈ codes -> files c = None) ->
  snd (Select.load_data sort_values files codes) = []
  /\ length (fst (Select.load_data sort_values files codes)) = length codes
  /\ main to_datetime g args_date
       (snd (Select.load_data sort_values files codes)) cfgs = inl (Exit 1).
Proof.
  intros Hnone.
  destruct (load_data_from sort_values files codes [] []) as (Hk & _ & Hl).
  change (fold_left (Select.load_one sort_values files) codes ([], []))
    with (Select.load_data sort_values files codes) in Hk, Hl.
  assert (Hfile : List.filter (has_file files) codes = []).
  { apply filter_none. intros c Hc. unfold has_file.
    rewrite (Hnone c Hc). reflexivity. }
  assert (Hmiss : List.filter (fun c => negb (has_file files c)) codes = codes).
  { apply filter_all. intros c Hc. unfold has_file.
    rewrite (Hnone c Hc). reflexivity. }
  rewrite Hfile in Hk. rewrite Hmiss in Hl.
  simpl in Hk, Hl.
  destruct (snd (Select.load_data sort_values files codes)) as [|x data];
    [|discriminate].
  split; [reflexivity|]. split; [|reflexivity].
  rewrite Hl, length_map. reflexivity.
Qed.

Lemma no_data_file_exits_witness :
  main (SM := Sample.the_module) (PI := Sample.interpreter) Sample.no_date
    (Sample.client "A") None
    (snd (Select.load_data FetchKline.sort_values (fun _ => None)
            ["000001"; "000002"]))
    [Sample.good_cfg] = inl (Exit 1).
Proof.
  apply (no_data_file_exits (SM := Sample.the_module)
           (PI := Sample.interpreter) FetchKline.sort_values (fun _ => None)
           ["000001"; "000002"] Sample.no_date (Sample.client "A") None
           [Sample.good_cfg]).
  intros c _. reflexivity.
Defined.

(** ** The stock pool *)

Lemma first_occurrences_id_elem (l : list string) (x : string) :
  x ∈ first_occurrences id [] l <-> x ∈ l.
Proof.
  split.
  - intros Hx. apply (first_occurrences_subset id [] l x Hx).
  - intros Hx.
    destruct (first_occurrences_keeps_keys id [] l x Hx) as (y & Hy & Heq).
    { intros Hnil. inversion Hnil. }
    unfold id in Heq. subst y. exact Hy.
Qed.

Lemma first_occurrences_id_NoDup (seen l : list string) :
  NoDup (first_occurrences id seen l).
Proof.
  pose proof (first_occurrences_NoDup (@id string) seen l) as Hnodup.
  rewrite map_id in Hnodup. exact Hnodup.
Qed.

Lemma filter_elem_of {A : Type} (f : A -> bool) (l : list A) (x : A) :
  x ∈ List.filter f l <-> x ∈ l /\ f x = true.
Proof. rewrite !list_elem_of_In. apply filter_In. Qed.

(** X5. Given a snapshot, [get_constituents] returns a list without
    repetition that starts with the appendix codes (each at its first
    occurrence) and contains, besides them, exactly the padded codes of
    the snapshot rows that pass the filter; the appendix codes are not
    filtered. It logs the number of codes returned. *)
Theorem get_constituents_codes
    (stock_zh_a_spot_em : nat -> exn + list FetchKline.spot_row)
    (to_numeric : value -> float) (str_zfill : string -> nat -> string)
    (min_cap max_cap : float) (small_player : value)
    (df : list FetchKline.cap_row) (appendix : option (exn + list string))
    (log : list FetchKline.event) (codes : list string) :
  FetchKline.get_constituents stock_zh_a_spot_em to_numeric str_zfill
    min_cap max_cap small_player (Some df) appendix = (log, inr codes) ->
  exists appendix_codes,
    (appendix = Some (inr appendix_codes)
     \/ (appendix = None /\ appendix_codes = []))
    /\ NoDup codes
    /\ (exists rest, codes = first_occurrences id [] appendix_codes ++ rest)
    /\ (forall c, c ∈ codes <->
          c ∈ appendix_codes
          \/ exists r, r ∈ df
                       /\ FetchKline.cond min_cap max_cap small_player r = true
                       /\ str_zfill (FetchKline.cap_code r) 6 = c)
    /\ log = [FetchKline.Filtered (length codes)].
Proof.
  unfold FetchKline.get_constituents.
  set (picked := map (fun r => str_zfill (FetchKline.cap_code r) 6)
                   (List.filter (FetchKline.cond min_cap max_cap small_player) df)).
  assert (Hpicked : forall c, c ∈ picked <->
            exists r, r ∈ df
                      /\ FetchKline.cond min_cap max_cap small_player r = true
                      /\ str_zfill (FetchKline.cap_code r) 6 = c).
  { intros c. unfold picked. split.
    - intros Hc. apply list_elem_of_fmap in Hc as (r & -> & Hr).
      apply filter_elem_of in Hr as [Hr Hcond]. eauto.
    - intros (r & Hr & Hcond & <-). apply list_elem_of_fmap. exists r.
      split; [reflexivity|]. apply filter_elem_of. auto. }
  destruct appendix as [[e|appendix_codes]|].
  - discriminate.
  - intros [= <- <-]. exists appendix_codes.
    split; [left; reflexivity|].
    split; [apply first_occurrences_id_NoDup|].
    split; [rewrite first_occurrences_app; eauto|].
    split; [|reflexivity].
    intros c. rewrite first_occurrences_id_elem, elem_of_app, Hpicked.
    reflexivity.
  - intros [= <- <-]. exists [].
    split; [right; auto|].
    split; [apply first_occurrences_id_NoDup|].
    split; [simpl; eauto|].
    split; [|reflexivity].
    intros c. rewrite first_occurrences_id_elem, Hpicked.
    split; [auto|]. intros [Hnil|Hr]; [inversion Hnil | exact Hr].
Qed.

Lemma get_constituents_codes_witness :
  let appendix : option (exn + list string) :=
    Some (inr ["600000"; "000001"]) in
  let codes := ["600000"; "000001"; "600519"] in
  exists appendix_codes,
    (appendix = Some (inr appendix_codes)
     \/ (appendix = None /\ appendix_codes = []))
    /\ NoDup codes
    /\ (exists rest, codes = first_occurrences id [] appendix_codes ++ rest)
    /\ (forall c, c ∈ codes <->
          c ∈ appendix_codes
          \/ exists r, r ∈ Sample.snapshot
                       /\ FetchKline.cond (Finite 5000000000) PosInf
                            (VBool true) r = true
                       /\ Select.zfill (FetchKline.cap_code r) 6 = c)
    /\ [FetchKline.Filtered 3] = [FetchKline.Filtered (length codes)].
Proof.
  intros appendix codes.
  apply (get_constituents_codes Sample.spot_never Sample.numeric Select.zfill
           (Finite 5000000000) PosInf (VBool true) Sample.snapshot appendix).
  reflexivity.
Defined.

Lemma cond_truthy (min_cap max_cap : float) (flag1 flag2 : value)
    (r : FetchKline.cap_row) :
  truthy flag1 = truthy flag2 ->
  FetchKline.cond min_cap max_cap flag1 r
  = FetchKline.cond min_cap max_cap flag2 r.
Proof. intros Heq. unfold FetchKline.cond. rewrite Heq. reflexivity. Qed.

(** X6. [get_constituents] tests its [small_player] argument for truth:
    any truthy value, in particular any non-empty string such as the
    ["False"] that the command line delivers for [--exclude-gem False],
    excludes the boards exactly as [True] does. *)
Theorem small_player_is_tested_for_truth
    (stock_zh_a_spot_em : nat -> exn + list FetchKline.spot_row)
    (to_numeric : value -> float) (str_zfill : string -> nat -> string)
    (min_cap max_cap : float) (small_player : value)
    (mktcap_df : option (list FetchKline.cap_row))
    (appendix : option (exn + list string)) :
  truthy small_player = true ->
  FetchKline.get_constituents stock_zh_a_spot_em to_numeric str_zfill
    min_cap max_cap small_player mktcap_df appendix
  = FetchKline.get_constituents stock_zh_a_spot_em to_numeric str_zfill
      min_cap max_cap (VBool true) mktcap_df appendix.
Proof.
  intros Htruthy. unfold FetchKline.get_constituents.
  destruct (match mktcap_df with
            | Some df => ([], inr df)
            | None => FetchKline._get_mktcap_ak stock_zh_a_spot_em to_numeric
            end) as [log [e|df]]; [reflexivity|].
  assert (Hfilter :
    List.filter (FetchKline.cond min_cap max_cap small_player) df
    = List.filter (FetchKline.cond min_cap max_cap (VBool true)) df).
  { apply filter_ext. intros r. apply cond_truthy. exact Htruthy. }
  rewrite Hfilter. reflexivity.
Qed.

Lemma small_player_is_tested_for_truth_witness :
  FetchKline.get_constituents Sample.spot_never Sample.numeric Select.zfill
    (Finite 5000000000) PosInf (VStr "False") (Some Sample.snapshot) None
  = FetchKline.get_constituents Sample.spot_never Sample.numeric Select.zfill
      (Finite 5000000000) PosInf (VBool true) (Some Sample.snapshot) None.
Proof.
  apply (small_player_is_tested_for_truth Sample.spot_never Sample.numeric
           Select.zfill (Finite 5000000000) PosInf (VStr "False")
           (Some Sample.snapshot) None).
  reflexivity.
Defined.

Section SnapshotFacts.
Variable stock_zh_a_spot_em : nat -> exn + list FetchKline.spot_row.
Variable to_numeric : value -> float.

Lemma snapshot_attempts_spec (attempt remaining : nat) :
  exists k,
    (k <= remaining)%nat
    /\ Forall2 (failed_attempt stock_zh_a_spot_em)
         (fst (FetchKline.snapshot_attempts stock_zh_a_spot_em attempt remaining))
         (seq attempt k)
    /\ match snd (FetchKline.snapshot_attempts stock_zh_a_spot_em attempt remaining) with
       | Some df =>
           (k < remaining)%nat /\ stock_zh_a_spot_em (attempt + k) = inr df
       | None => k = remaining
       end.
Proof.
  revert attempt. induction remaining as [|rem IH]; intros attempt; simpl.
  - exists 0%nat. repeat split; [lia | constructor].
  - destruct (stock_zh_a_spot_em attempt) as [e|df] eqn:Hspot.
    + destruct (IH (S attempt)) as (k & Hk & Hlog & Hres).
      destruct (FetchKline.snapshot_attempts stock_zh_a_spot_em (S attempt) rem)
        as [log r].
      exists (S k). simpl in *. split; [lia|]. split.
      * constructor; [|exact Hlog]. exists e. auto.
      * destruct r as [df|]; [|lia].
        destruct Hres as [Hlt Hdf]. split; [lia|].
        replace (attempt + S k)%nat with (S attempt + k)%nat by lia. exact Hdf.
    + exists 0%nat. simpl. split; [lia|]. split; [constructor|].
      split; [lia|]. rewrite Nat.add_0_r. exact Hspot.
Qed.

End SnapshotFacts.

(** X7. [_get_mktcap_ak] asks the provider up to three times and stops at
    the first answer: it returns that answer's rows, with the market value
    converted to a number, after logging one warning for every earlier
    attempt, and raises [RuntimeError], after three warnings, exactly when
    all three attempts fail. *)
Theorem get_mktcap_ak_first_answer
    (stock_zh_a_spot_em : nat -> exn + list FetchKline.spot_row)
    (to_numeric : value -> float) :
  (forall n df,
     (1 <= n <= 3)%nat ->
     stock_zh_a_spot_em n = inr df ->
     (forall j, (1 <= j < n)%nat -> exists e, stock_zh_a_spot_em j = inl e) ->
     snd (FetchKline._get_mktcap_ak stock_zh_a_spot_em to_numeric)
     = inr (map (fun r => FetchKline.CapRow (FetchKline.spot_code r)
                            (to_numeric (FetchKline.spot_total r))) df)
     /\ Forall2 (failed_attempt stock_zh_a_spot_em)
          (fst (FetchKline._get_mktcap_ak stock_zh_a_spot_em to_numeric))
          (seq 1 (n - 1)))
  /\ ((exists msg,
         snd (FetchKline._get_mktcap_ak stock_zh_a_spot_em to_numeric)
         = inl (OtherError "RuntimeError" msg))
      <-> forall j, (1 <= j <= 3)%nat -> exists e, stock_zh_a_spot_em j = inl e)
  /\ ((forall j, (1 <= j <= 3)%nat -> exists e, stock_zh_a_spot_em j = inl e) ->
      Forall2 (failed_attempt stock_zh_a_spot_em)
        (fst (FetchKline._get_mktcap_ak stock_zh_a_spot_em to_numeric))
        [1; 2; 3]%nat).
Proof.
  unfold FetchKline._get_mktcap_ak.
  destruct (snapshot_attempts_spec stock_zh_a_spot_em 1 3) as (k & Hk & Hlog & Hres).
  destruct (FetchKline.snapshot_attempts stock_zh_a_spot_em 1 3) as [log r].
  simpl in Hlog, Hres.
  assert (Hfail : forall j, (1 <= j < 1 + k)%nat ->
                    exists e, stock_zh_a_spot_em j = inl e).
  { intros j Hj.
    assert (Hin : j ∈ seq 1 k) by (apply elem_of_seq; lia).
    apply list_elem_of_lookup in Hin as [i Hi].
    destruct (Forall2_lookup_r _ _ _ _ _ Hlog Hi) as (ev & _ & e & He & _).
    eauto. }
  split; [|split].
  - intros n df Hn Hdf Hbefore.
    destruct r as [df'|].
    + destruct Hres as [Hlt Hdf'].
      assert (n = S k) as ->.
      { destruct (Nat.lt_trichotomy n (S k)) as [Hlt'|[Heq|Hgt]]; [|exact Heq|].
        - destruct (Hfail n) as [e He]; [lia | congruence].
        - destruct (Hbefore (S k)) as [e He]; [lia | congruence]. }
      rewrite Hdf' in Hdf. injection Hdf as ->. simpl.
      split; [reflexivity|].
      replace (k - 0)%nat with k by lia. exact Hlog.
    + subst k. destruct (Hfail n) as [e He]; [lia | congruence].
  - destruct r as [df|]; simpl.
    + split.
      * intros [msg Hmsg]. discriminate.
      * intros Hall. destruct Hres as [Hlt Hdf].
        destruct (Hall (S k)) as [e He]; [lia | congruence].
    + split; [|eauto]. intros _ j Hj. subst k. apply Hfail. lia.
  - intros Hall. destruct r as [df|]; simpl.
    + destruct Hres as [Hlt Hdf].
      destruct (Hall (S k)) as [e He]; [lia | congruence].
    + subst k. exact Hlog.
Qed.

Lemma get_mktcap_ak_first_answer_witness :
  snd (FetchKline._get_mktcap_ak Sample.spot_second Sample.numeric)
  = inr [FetchKline.CapRow "1" (Finite (inject_Z 6000000000))]
  /\ Forall2 (failed_attempt Sample.spot_second)
       (fst (FetchKline._get_mktcap_ak Sample.spot_second Sample.numeric))
       (seq 1 (2 - 1)).
Proof.
  apply (proj1 (get_mktcap_ak_first_answer Sample.spot_second Sample.numeric)
           2%nat [FetchKline.SpotRow "1" (VInt 6000000000)]).
  - lia.
  - reflexivity.
  - intros j Hj. assert (j = 1%nat) as -> by lia. eexists. reflexivity.
Defined.

(** ** get_kline and fetch_one *)

Section FetchFacts.
Variable _get_kline_hk_akshare :
  nat -> string -> string -> string -> string -> exn + DataFrame.
Variable _get_kline_tushare :
  nat -> string -> string -> string -> string -> exn + DataFrame.
Variable _get_kline_akshare :
  nat -> string -> string -> string -> string -> exn + DataFrame.
Variable _get_kline_mootdx :
  nat -> string -> string -> string -> string -> Z -> exn + DataFrame.

Abbreviation get_kline :=
  (FetchKline.get_kline _get_kline_hk_akshare _get_kline_tushare
     _get_kline_akshare _get_kline_mootdx).

(** X8. For the market "HK", [get_kline] always answers with the AKShare
    fetcher for Hong Kong, whatever the data source asked for (it logs the
    switch unless the source is "akshare") and never raises the
    unsupported-source error itself; for any other market a data source
    other than "tushare", "akshare" and "mootdx" raises [ValueError]
    without any fetcher being consulted. *)
Theorem get_kline_dispatch (t : nat)
    (code start end_ adjust datasource market : string) (freq_code : Z) :
  (market = "HK" ->
     snd (get_kline t code start end_ adjust datasource freq_code market)
     = _get_kline_hk_akshare t code start end_ adjust
     /\ (FetchKline.HkSwitched
          ∈ fst (get_kline t code start end_ adjust datasource freq_code market)
          <-> datasource <> "akshare"))
  /\ (market <> "HK" ->
      datasource ∉ ["tushare"; "akshare"; "mootdx"] ->
      get_kline t code start end_ adjust datasource freq_code market
      = ([FetchKline.KlineCall "A" code datasource],
         inl (ValueError "datasource 仅支持 'tushare', 'akshare' 或 'mootdx'")))
  /\ (market <> "HK" ->
      datasource = "tushare" ->
      snd (get_kline t code start end_ adjust datasource freq_code market)
      = _get_kline_tushare t code start end_ adjust).
Proof.
  unfold FetchKline.get_kline, FetchKline.market_label.
  split; [|split].
  - intros ->. simpl. split; [reflexivity|].
    destruct (String.eqb_spec datasource "akshare") as [->|Hne]; simpl.
    + split; [|congruence]. intros Hin.
      repeat (apply elem_of_cons in Hin as [Hin|Hin]; [discriminate Hin|]).
      inversion Hin.
    + split; [auto|]. intros _. right. left.
  - intros Hmarket Hsource.
    destruct (String.eqb_spec market "HK") as [?|_]; [contradiction|].
    destruct (String.eqb_spec datasource "tushare") as [->|_].
    { exfalso. apply Hsource. left. }
    destruct (String.eqb_spec datasource "akshare") as [->|_].
    { exfalso. apply Hsource. right. left. }
    destruct (String.eqb_spec datasource "mootdx") as [->|_].
    { exfalso. apply Hsource. right. right. left. }
    reflexivity.
  - intros Hmarket ->.
    destruct (String.eqb_spec market "HK") as [?|_]; [contradiction|].
    reflexivity.
Qed.

End FetchFacts.

Lemma get_kline_dispatch_witness :
  let hk := fun (_ : nat) (_ _ _ _ : string) =>
              @inr exn DataFrame [Sample.bar 5] in
  let other := fun (_ : nat) (_ _ _ _ : string) =>
                 @inr exn DataFrame [Sample.bar 1] in
  let mootdx := fun (_ : nat) (_ _ _ _ : string) (_ : Z) =>
                  @inr exn DataFrame [Sample.bar 2] in
  snd (FetchKline.get_kline hk other other mootdx 1 "00700" "20240101"
         "20240105" "qfq" "nonsense" 4 "HK")
  = inr [Sample.bar 5].
Proof.
  intros hk other mootdx.
  apply (proj1 (get_kline_dispatch hk other other mootdx 1 "00700" "20240101"
                  "20240105" "qfq" "nonsense" "HK" 4)).
  reflexivity.
Defined.

(** What a frame returned by [validate] looks like. *)
Lemma validate_inr_clean (today : Z) (df out : DataFrame) :
  FetchKline.validate today df = inr out ->
  out = FetchKline.sort_values (FetchKline.drop_duplicates df)
  /\ NoDup (map date out)
  /\ Forall (fun r => isna (date r) = false) out
  /\ map date out = map TS (valid_dates out)
  /\ StronglySorted Z.lt (valid_dates out)
  /\ Forall (fun t => (t <= today)%Z) (valid_dates out).
Proof.
  unfold FetchKline.validate.
  set (out' := FetchKline.sort_values (FetchKline.drop_duplicates df)).
  destruct (existsb (fun r => isna (date r)) out') eqn:Hna; [discriminate|].
  destruct (existsb (fun r => ts_gt (date r) (TS today)) out') eqn:Hfut;
    [discriminate|].
  intros [= <-].
  assert (Hnodup : NoDup (map date out')).
  { assert (Hperm : map date out' ≡ₚ map date (FetchKline.drop_duplicates df))
      by apply Permutation_map, sort_values_Permutation.
    rewrite Hperm. apply (drop_duplicates_from_NoDup [] df). }
  pose proof (existsb_false_Forall _ _ Hna) as Hdated.
  destruct (sorted_distinct_dates_increase out'
              (sort_values_sorted _) Hnodup Hdated) as [Hmap Hinc].
  repeat (split; [assumption || reflexivity|]).
  apply Forall_forall. intros t Ht.
  assert (Hin : TS t ∈ map date out').
  { rewrite Hmap. apply list_elem_of_fmap. eauto. }
  apply list_elem_of_fmap in Hin as (r & Hr & Hrin).
  apply existsb_false_Forall in Hfut. rewrite Forall_forall in Hfut.
  specialize (Hfut r Hrin). simpl in Hfut. rewrite <- Hr in Hfut.
  simpl in Hfut. apply Z.ltb_ge in Hfut. exact Hfut.
Qed.

Lemma validate_nonempty (today : Z) (df out : DataFrame) :
  FetchKline.validate today df = inr out -> df <> [] -> out <> [].
Proof.
  intros Hout Hdf. apply validate_inr_clean in Hout as (-> & _).
  destruct df as [|x rest]; [contradiction|].
  intros Hnil.
  assert (Hx : x ∈ FetchKline.sort_values
                     (FetchKline.drop_duplicates (x :: rest))).
  { rewrite sort_values_Permutation. left. }
  rewrite Hnil in Hx. inversion Hx.
Qed.

Lemma count_events_app (f : FetchKline.event -> bool)
    (l1 l2 : list FetchKline.event) :
  count_events f (l1 ++ l2) = (count_events f l1 + count_events f l2)%nat.
Proof. unfold count_events. rewrite List.filter_app, length_app. reflexivity. Qed.

Section FetchOneFacts.
Variable _get_kline_hk_akshare :
  nat -> string -> string -> string -> string -> exn + DataFrame.
Variable _get_kline_tushare :
  nat -> string -> string -> string -> string -> exn + DataFrame.
Variable _get_kline_akshare :
  nat -> string -> string -> string -> string -> exn + DataFrame.
Variable _get_kline_mootdx :
  nat -> string -> string -> string -> string -> Z -> exn + DataFrame.
Variable today : nat -> Z.
Variable parse_ymd : string -> exn + Z.
Variable strftime_ymd : Z -> string.
Variable nat_error : exn.
Variables (code end_ csv_path datasource market : string).
Variables (incremental : bool) (freq_code : Z).
Variable existing : option (exn + DataFrame).

Abbreviation kline_at attempt start :=
  (FetchKline.get_kline _get_kline_hk_akshare _get_kline_tushare
     _get_kline_akshare _get_kline_mootdx attempt code start end_ "qfq"
     datasource freq_code market).

Abbreviation attempts start attempt remaining :=
  (FetchKline.fetch_attempts _get_kline_hk_akshare _get_kline_tushare
     _get_kline_akshare _get_kline_mootdx today code end_ datasource market
     incremental freq_code existing start attempt remaining).

Abbreviation fetch_one start :=
  (FetchKline.fetch_one _get_kline_hk_akshare _get_kline_tushare
     _get_kline_akshare _get_kline_mootdx today parse_ymd strftime_ymd
     nat_error code end_ csv_path datasource market incremental freq_code
     existing start).

Abbreviation resume_from start :=
  (FetchKline.resume_from parse_ymd strftime_ymd nat_error code end_ csv_path
     incremental existing start).

(** What one call of [get_kline] logs. *)
Lemma kline_log (attempt : nat) (start : string) :
  count_events is_kline_call (fst (kline_at attempt start)) = 1%nat
  /\ count_events is_attempt_failed (fst (kline_at attempt start)) = 0%nat
  /\ FetchKline.GaveUp code ∉ fst (kline_at attempt start).
Proof.
  unfold FetchKline.get_kline.
  destruct (String.eqb market "HK").
  - destruct (negb (String.eqb datasource "akshare")); simpl;
      (split; [reflexivity|]; split; [reflexivity|]); intros Hin;
      repeat (apply elem_of_cons in Hin as [Hin|Hin]; [discriminate Hin|]);
      inversion Hin.
  - destruct (String.eqb datasource "tushare"),
      (String.eqb datasource "akshare"), (String.eqb datasource "mootdx");
      simpl; (split; [reflexivity|]; split; [reflexivity|]); intros Hin;
      repeat (apply elem_of_cons in Hin as [Hin|Hin]; [discriminate Hin|]);
      inversion Hin.
Qed.

(** Where a written frame comes from. *)
Lemma fetch_attempts_written (start : string) (attempt remaining : nat)
    (df : DataFrame) :
  FetchKline.written (attempts start attempt remaining) = Some df ->
  exists n raw new_df,
    (attempt <= n < attempt + remaining)%nat
    /\ snd (kline_at n start) = inr raw
    /\ raw <> []
    /\ FetchKline.validate (today n) raw = inr new_df
    /\ match existing, incremental with
       | Some (inr old_df), true =>
           df = FetchKline.sort_values
                  (FetchKline.drop_duplicates (old_df ++ new_df))
       | Some (inl _), true => False
       | _, _ => df = new_df
       end.
Proof.
  revert attempt. induction remaining as [|k IH]; intros attempt;
    [discriminate|].
  cbn [FetchKline.fetch_attempts].
  destruct (kline_at attempt start) as [log answer] eqn:Hcall.
  assert (Hretry : forall e,
    FetchKline.written
      (FetchKline.logged_all log
         (FetchKline.logged (FetchKline.AttemptFailed code attempt e)
            (attempts start (S attempt) k))) = Some df ->
    exists n raw new_df,
      (attempt <= n < attempt + S k)%nat
      /\ snd (kline_at n start) = inr raw
      /\ raw <> []
      /\ FetchKline.validate (today n) raw = inr new_df
      /\ match existing, incremental with
         | Some (inr old_df), true =>
             df = FetchKline.sort_values
                    (FetchKline.drop_duplicates (old_df ++ new_df))
         | Some (inl _), true => False
         | _, _ => df = new_df
         end).
  { intros e Hw. destruct (IH (S attempt) Hw) as (n & raw & new_df & Hn & Hrest).
    exists n, raw, new_df. split; [lia | exact Hrest]. }
  destruct answer as [e|[|x raw]]; [apply Hretry | discriminate |].
  destruct (FetchKline.validate (today attempt) (x :: raw)) as [e|new_df] eqn:Hval;
    [apply Hretry|].
  assert (Hhere : snd (kline_at attempt start) = inr (x :: raw))
    by (rewrite Hcall; reflexivity).
  destruct existing as [[e|old_df]|], incremental; try apply Hretry;
    intros [= <-]; exists attempt, (x :: raw), new_df;
    (split; [lia|]); (split; [exact Hhere|]); (split; [discriminate|]);
    (split; [exact Hval | reflexivity]).
Qed.

(** How often the provider is asked, and when the loop gives up. *)
Lemma fetch_attempts_events (start : string) (attempt remaining : nat) :
  (count_events is_kline_call
     (FetchKline.events (attempts start attempt remaining)) <= remaining)%nat
  /\ (count_events is_attempt_failed
        (FetchKline.events (attempts start attempt remaining)) <= remaining)%nat
  /\ (FetchKline.GaveUp code
      ∈ FetchKline.events (attempts start attempt remaining)
      <-> count_events is_attempt_failed
            (FetchKline.events (attempts start attempt remaining)) = remaining)
  /\ (FetchKline.GaveUp code
      ∈ FetchKline.events (attempts start attempt remaining) ->
      FetchKline.written (attempts start attempt remaining) = None
      /\ count_events is_kline_call
           (FetchKline.events (attempts start attempt remaining)) = remaining).
Proof.
  revert attempt. induction remaining as [|k IH]; intros attempt.
  - simpl. repeat split; auto. intros _. left.
  - cbn [FetchKline.fetch_attempts].
    destruct (kline_log attempt start) as (Hcalls & Hfailed & Hgave).
    destruct (kline_at attempt start) as [log answer]. simpl in Hcalls, Hfailed, Hgave.
    assert (Hretry : forall e,
      let o := FetchKline.logged_all log
                 (FetchKline.logged (FetchKline.AttemptFailed code attempt e)
                    (attempts start (S attempt) k)) in
      (count_events is_kline_call (FetchKline.events o) <= S k)%nat
      /\ (count_events is_attempt_failed (FetchKline.events o) <= S k)%nat
      /\ (FetchKline.GaveUp code ∈ FetchKline.events o
          <-> count_events is_attempt_failed (FetchKline.events o) = S k)
      /\ (FetchKline.GaveUp code ∈ FetchKline.events o ->
          FetchKline.written o = None
          /\ count_events is_kline_call (FetchKline.events o) = S k)).
    { intros e. destruct (IH (S attempt)) as (Hc & Hf & Hiff & Hnone).
      cbn [FetchKline.logged_all FetchKline.logged FetchKline.events
             FetchKline.written].
      change (FetchKline.AttemptFailed code attempt e :: ?l)
        with ([FetchKline.AttemptFailed code attempt e] ++ l).
      rewrite !count_events_app, Hcalls, Hfailed.
      change (count_events is_kline_call [FetchKline.AttemptFailed code attempt e])
        with 0%nat.
      change (count_events is_attempt_failed
                [FetchKline.AttemptFailed code attempt e]) with 1%nat.
      assert (Hmem : FetchKline.GaveUp code
                     ∈ log ++ [FetchKline.AttemptFailed code attempt e]
                         ++ FetchKline.events (attempts start (S attempt) k)
                     <-> FetchKline.GaveUp code
                         ∈ FetchKline.events (attempts start (S attempt) k)).
      { rewrite !elem_of_app, list_elem_of_singleton. split; [|auto].
        intros [?|[?|?]]; [contradiction | discriminate | assumption]. }
      split; [lia|]. split; [lia|]. split.
      - rewrite Hmem, Hiff. lia.
      - rewrite Hmem. intros Hg. destruct (Hnone Hg) as [-> ->]. split; [reflexivity | lia]. }
    assert (Hstop : forall (w : option DataFrame) (tail : list FetchKline.event),
      count_events is_kline_call tail = 0%nat ->
      count_events is_attempt_failed tail = 0%nat ->
      FetchKline.GaveUp code ∉ tail ->
      let o := FetchKline.Outcome w (log ++ tail) in
      (count_events is_kline_call (FetchKline.events o) <= S k)%nat
      /\ (count_events is_attempt_failed (FetchKline.events o) <= S k)%nat
      /\ (FetchKline.GaveUp code ∈ FetchKline.events o
          <-> count_events is_attempt_failed (FetchKline.events o) = S k)
      /\ (FetchKline.GaveUp code ∈ FetchKline.events o ->
          FetchKline.written o = None
          /\ count_events is_kline_call (FetchKline.events o) = S k)).
    { intros w tail Htc Htf Htg. cbn [FetchKline.events FetchKline.written].
      rewrite !count_events_app, Hcalls, Hfailed, Htc, Htf.
      assert (Hmem : FetchKline.GaveUp code ∉ log ++ tail).
      { rewrite elem_of_app. tauto. }
      split; [lia|]. split; [lia|]. split; [split; [contradiction | lia]|].
      contradiction. }
    destruct answer as [e|[|x raw]]; [apply Hretry | |].
    + apply (Hstop None [FetchKline.NoNewData code]); try reflexivity.
      intros Hin. apply list_elem_of_singleton in Hin. discriminate.
    + assert (Hnil : forall w,
        let o := FetchKline.Outcome w log in
        (count_events is_kline_call (FetchKline.events o) <= S k)%nat
        /\ (count_events is_attempt_failed (FetchKline.events o) <= S k)%nat
        /\ (FetchKline.GaveUp code ∈ FetchKline.events o
            <-> count_events is_attempt_failed (FetchKline.events o) = S k)
        /\ (FetchKline.GaveUp code ∈ FetchKline.events o ->
            FetchKline.written o = None
            /\ count_events is_kline_call (FetchKline.events o) = S k)).
      { intros w. pose proof (Hstop w [] eq_refl eq_refl) as Hs.
        rewrite app_nil_r in Hs. apply Hs. intros Hin. inversion Hin. }
      destruct (FetchKline.validate (today attempt) (x :: raw)) as [e|new_df];
        [apply Hretry|].
      destruct existing as [[e|old_df]|], incremental;
        try apply Hretry; apply Hnil.
Qed.

(** What the incremental prelude logs. *)
Lemma resume_log (start : string) :
  count_events is_kline_call (fst (resume_from start)) = 0%nat
  /\ count_events is_attempt_failed (fst (resume_from start)) = 0%nat
  /\ FetchKline.GaveUp code ∉ fst (resume_from start).
Proof.
  assert (Hone : forall ev,
            is_kline_call ev = false -> is_attempt_failed ev = false ->
            ev <> FetchKline.GaveUp code ->
            count_events is_kline_call [ev] = 0%nat
            /\ count_events is_attempt_failed [ev] = 0%nat
            /\ FetchKline.GaveUp code ∉ [ev]).
  { intros ev Hc Hf Hg. unfold count_events. simpl. rewrite Hc, Hf.
    repeat split. intros Hin. apply list_elem_of_singleton in Hin. congruence. }
  assert (Hnil : count_events is_kline_call [] = 0%nat
                 /\ count_events is_attempt_failed [] = 0%nat
                 /\ FetchKline.GaveUp code ∉ []).
  { repeat split. intros Hin. inversion Hin. }
  unfold FetchKline.resume_from.
  destruct existing as [[e|df]|], incremental; simpl; try exact Hnil.
  - apply Hone; [reflexivity | reflexivity | discriminate].
  - destruct (series_max df) as [last|];
      [|apply Hone; [reflexivity | reflexivity | discriminate]].
    destruct (parse_ymd end_) as [e|end_ts];
      [apply Hone; [reflexivity | reflexivity | discriminate]|].
    destruct last as [|last_date];
      [apply Hone; [reflexivity | reflexivity | discriminate]|].
    destruct (FetchKline.day_of _ <? FetchKline.day_of _)%Z; simpl;
      [|exact Hnil].
    apply Hone; [reflexivity | reflexivity | discriminate].
Qed.

Lemma fetch_one_written (start : string) (df : DataFrame) :
  FetchKline.written (fetch_one start) = Some df ->
  exists resumed,
    snd (resume_from start) = Some resumed
    /\ FetchKline.written (attempts resumed 1 3) = Some df.
Proof.
  unfold FetchKline.fetch_one.
  destruct (resume_from start) as [log [resumed|]]; simpl; [eauto | discriminate].
Qed.

(** X9. When [fetch_one] writes a file that is not merged with an
    existing one (no file yet, or not incremental), what it writes is the
    validated answer of one of at most three calls of [get_kline], for the
    start date given: a non-empty frame whose dates are all present,
    strictly increasing and not later than the day of that call. *)
Theorem fetch_one_writes_validated_frame (start : string) (df : DataFrame) :
  incremental = false \/ existing = None ->
  FetchKline.written (fetch_one start) = Some df ->
  df <> []
  /\ exists n raw,
       (1 <= n <= 3)%nat
       /\ snd (kline_at n start) = inr raw
       /\ FetchKline.validate (today n) raw = inr df
       /\ map date df = map TS (valid_dates df)
       /\ StronglySorted Z.lt (valid_dates df)
       /\ Forall (fun t => (t <= today n)%Z) (valid_dates df).
Proof.
  intros Hfresh Hw.
  destruct (fetch_one_written start df Hw) as (resumed & Hres & Hwritten).
  assert (resumed = start) as ->.
  { unfold FetchKline.resume_from in Hres.
    destruct Hfresh as [-> | ->].
    - destruct existing as [?|]; simpl in Hres; congruence.
    - simpl in Hres. congruence. }
  destruct (fetch_attempts_written start 1 3 df Hwritten)
    as (n & raw & new_df & Hn & Hcall & Hraw & Hval & Hshape).
  assert (df = new_df) as <-.
  { destruct Hfresh as [-> | ->].
    - destruct existing as [[?|?]|]; exact Hshape.
    - exact Hshape. }
  split; [eapply validate_nonempty; eauto|].
  destruct (validate_inr_clean _ _ _ Hval) as (_ & _ & _ & Hmap & Hinc & Hpast).
  exists n, raw. repeat (split; [assumption || lia|]). exact Hpast.
Qed.

(** X10. In incremental mode with a readable file, what [fetch_one]
    writes is the stored frame followed by the validated answer, reduced
    to the first row of every date and sorted by date. Every row written
    comes from one of the two; for a date that the stored frame has, the
    row written is a stored row, so a bar fetched again never replaces the
    stored one; a fetched row whose date is new is written; and the dates
    written are pairwise different and in order. *)
Theorem fetch_one_merge_keeps_stored_rows (start : string)
    (old_df df : DataFrame) :
  incremental = true ->
  existing = Some (inr old_df) ->
  FetchKline.written (fetch_one start) = Some df ->
  exists resumed n raw new_df,
    (1 <= n <= 3)%nat
    /\ snd (kline_at n resumed) = inr raw
    /\ FetchKline.validate (today n) raw = inr new_df
    /\ df = FetchKline.sort_values
              (FetchKline.drop_duplicates (old_df ++ new_df))
    /\ (forall r, r ∈ df -> r ∈ old_df \/ r ∈ new_df)
    /\ (forall r, r ∈ FetchKline.drop_duplicates old_df -> r ∈ df)
    /\ (forall r r', r ∈ df -> r' ∈ old_df -> date r' = date r -> r ∈ old_df)
    /\ (forall r, r ∈ new_df -> (forall r', r' ∈ old_df -> date r' <> date r) ->
          r ∈ df)
    /\ NoDup (map date df)
    /\ StronglySorted row_le df.
Proof.
  intros Hinc Hold Hw.
  destruct (fetch_one_written start df Hw) as (resumed & _ & Hwritten).
  destruct (fetch_attempts_written resumed 1 3 df Hwritten)
    as (n & raw & new_df & Hn & Hcall & _ & Hval & Hshape).
  rewrite Hold, Hinc in Hshape.
  destruct (validate_inr_clean _ _ _ Hval) as (_ & Hnodup & _).
  exists resumed, n, raw, new_df.
  split; [lia|]. split; [exact Hcall|]. split; [exact Hval|].
  split; [exact Hshape|]. subst df.
  split; [|split; [|split; [|split; [|split]]]].
  - intros r Hr. apply cleaned_subset in Hr. apply elem_of_app in Hr. exact Hr.
  - intros r Hr. unfold FetchKline.drop_duplicates in Hr.
    apply drop_duplicates_from_elem in Hr as (l1 & l2 & -> & _ & Hl1).
    apply cleaned_elem. exists l1, (l2 ++ new_df).
    split; [|exact Hl1]. rewrite <- app_assoc. reflexivity.
  - intros r r' Hr Hr' Hdate.
    apply cleaned_elem in Hr as (l1 & l2 & Heq & Hl1).
    symmetry in Heq. apply app_eq_app in Heq as [k [[Hl Hk]|[Hl Hk]]].
    + exfalso. apply (Hl1 r'); [|exact Hdate].
      rewrite Hl. apply elem_of_app. left. exact Hr'.
    + destruct k as [|x k].
      * exfalso. apply (Hl1 r'); [|exact Hdate].
        rewrite app_nil_r in Hl. rewrite <- Hl. exact Hr'.
      * injection Hk as -> _. rewrite Hl. apply elem_of_app. right. left.
  - intros r Hr Hfresh.
    apply list_elem_of_split in Hr as (l1 & l2 & ->).
    apply cleaned_elem. exists (old_df ++ l1), l2.
    split; [rewrite <- app_assoc; reflexivity|].
    intros r' Hr'. apply elem_of_app in Hr' as [Hr'|Hr']; [auto|].
    intros Hdate. rewrite map_app in Hnodup. simpl in Hnodup.
    apply NoDup_app in Hnodup as (_ & Hdisj & _).
    apply (Hdisj (date r')); [apply list_elem_of_fmap; eauto|].
    rewrite Hdate. left.
  - assert (Hperm : map date (FetchKline.sort_values
                                (FetchKline.drop_duplicates (old_df ++ new_df)))
                    ≡ₚ map date (FetchKline.drop_duplicates (old_df ++ new_df)))
      by apply Permutation_map, sort_values_Permutation.
    rewrite Hperm. apply (drop_duplicates_from_NoDup [] (old_df ++ new_df)).
  - apply sort_values_sorted.
Qed.

Lemma fetch_one_events (start : string) :
  FetchKline.events (fetch_one start)
  = [FetchKline.FetchStart (FetchKline.market_label market) code csv_path]
    ++ fst (resume_from start)
    ++ match snd (resume_from start) with
       | Some resumed => FetchKline.events (attempts resumed 1 3)
       | None => []
       end.
Proof.
  unfold FetchKline.fetch_one.
  destruct (resume_from start) as [log [resumed|]]; reflexivity.
Qed.

Lemma fetch_one_up_to_date (start : string) (stored : DataFrame)
    (end_ts last_date : Z) :
  incremental = true ->
  existing = Some (inr stored) ->
  parse_ymd end_ = inr end_ts ->
  date_max stored = TS last_date ->
  (FetchKline.day_of end_ts < FetchKline.day_of last_date)%Z ->
  fetch_one start
  = FetchKline.Outcome None
      [FetchKline.FetchStart (FetchKline.market_label market) code csv_path;
       FetchKline.UpToDate code].
Proof.
  intros Hinc Hstored Hend Hlast Hnewer.
  unfold FetchKline.fetch_one, FetchKline.resume_from.
  rewrite Hstored, Hinc, (series_max_dated stored last_date Hlast), Hend.
  apply Z.ltb_lt in Hnewer. rewrite Hnewer. reflexivity.
Qed.

(** X11. [fetch_one] calls [get_kline] at most three times. It gives up
    exactly after three failed attempts, and then writes nothing; and a
    stored file whose last date lies after [end] is left alone: nothing is
    fetched and nothing is written. *)
Theorem fetch_one_attempts_bounded (start : string) :
  (count_events is_kline_call (FetchKline.events (fetch_one start)) <= 3)%nat
  /\ (FetchKline.GaveUp code ∈ FetchKline.events (fetch_one start) ->
      FetchKline.written (fetch_one start) = None
      /\ count_events is_kline_call (FetchKline.events (fetch_one start)) = 3%nat
      /\ count_events is_attempt_failed
           (FetchKline.events (fetch_one start)) = 3%nat)
  /\ (forall stored end_ts last_date,
        incremental = true ->
        existing = Some (inr stored) ->
        parse_ymd end_ = inr end_ts ->
        date_max stored = TS last_date ->
        (FetchKline.day_of end_ts < FetchKline.day_of last_date)%Z ->
        fetch_one start
        = FetchKline.Outcome None
            [FetchKline.FetchStart (FetchKline.market_label market) code csv_path;
             FetchKline.UpToDate code]).
Proof.
  destruct (resume_log start) as (Hc & Hf & Hg).
  pose proof (fetch_one_events start) as Hev.
  destruct (snd (resume_from start)) as [resumed|] eqn:Hres.
  - destruct (fetch_attempts_events resumed 1 3) as (Hcalls & _ & Hiff & Hnone).
    split; [|split].
    + rewrite Hev, !count_events_app, Hc.
      change (count_events is_kline_call [FetchKline.FetchStart _ _ _]) with 0%nat.
      lia.
    + rewrite Hev. intros Hin.
      apply elem_of_app in Hin as [Hin|Hin];
        [apply list_elem_of_singleton in Hin; discriminate Hin|].
      apply elem_of_app in Hin as [Hin|Hin]; [contradiction|].
      destruct (Hnone Hin) as [Hw Hcount]. apply Hiff in Hin.
      split.
      * unfold FetchKline.fetch_one.
        destruct (resume_from start) as [log resume]. simpl in Hres. subst resume.
        exact Hw.
      * rewrite !count_events_app, Hc, Hf, Hcount, Hin. split; reflexivity.
    + apply fetch_one_up_to_date.
  - split; [|split].
    + rewrite Hev, !count_events_app, Hc. unfold count_events. simpl. lia.
    + rewrite Hev. intros Hin.
      apply elem_of_app in Hin as [Hin|Hin];
        [apply list_elem_of_singleton in Hin; discriminate Hin|].
      apply elem_of_app in Hin as [Hin|Hin]; [contradiction | inversion Hin].
    + apply fetch_one_up_to_date.
Qed.

End FetchOneFacts.

Abbreviation sample_fetch_one provider incremental existing :=
  (FetchKline.fetch_one provider provider provider Sample.no_mootdx
     Sample.clock Sample.ymd Sample.show_ymd Sample.nat_failure
     "000001" "20240105" "data/000001.csv" "tushare" "A" incremental 4
     existing "20240101").

Lemma fetch_one_writes_validated_frame_witness :
  let df := [Sample.bar 3; Sample.bar 4] in
  df <> []
  /\ exists n raw,
       (1 <= n <= 3)%nat
       /\ snd (FetchKline.get_kline Sample.flaky Sample.flaky Sample.flaky
                 Sample.no_mootdx n "000001" "20240101" "20240105" "qfq"
                 "tushare" 4 "A") = inr raw
       /\ FetchKline.validate (Sample.clock n) raw = inr df
       /\ map date df = map TS (valid_dates df)
       /\ StronglySorted Z.lt (valid_dates df)
       /\ Forall (fun t => (t <= Sample.clock n)%Z) (valid_dates df).
Proof.
  intros df.
  apply (fetch_one_writes_validated_frame Sample.flaky Sample.flaky
           Sample.flaky Sample.no_mootdx Sample.clock Sample.ymd
           Sample.show_ymd Sample.nat_failure "000001" "20240105"
           "data/000001.csv" "tushare" "A" false 4 None "20240101" df).
  - left. reflexivity.
  - reflexivity.
Defined.

Lemma fetch_one_merge_keeps_stored_rows_witness :
  let stored := [Sample.bar 2; Row (TS 3) None None None None None] in
  let df := [Sample.bar 2; Row (TS 3) None None None None None; Sample.bar 4] in
  FetchKline.written (sample_fetch_one Sample.flaky true (Some (inr stored)))
  = Some df
  /\ exists resumed n raw new_df,
       (1 <= n <= 3)%nat
       /\ snd (FetchKline.get_kline Sample.flaky Sample.flaky Sample.flaky
                 Sample.no_mootdx n "000001" resumed "20240105" "qfq"
                 "tushare" 4 "A") = inr raw
       /\ FetchKline.validate (Sample.clock n) raw = inr new_df
       /\ df = FetchKline.sort_values
                 (FetchKline.drop_duplicates (stored ++ new_df))
       /\ (forall r, r ∈ df -> r ∈ stored \/ r ∈ new_df)
       /\ (forall r, r ∈ FetchKline.drop_duplicates stored -> r ∈ df)
       /\ (forall r r', r ∈ df -> r' ∈ stored -> date r' = date r -> r ∈ stored)
       /\ (forall r, r ∈ new_df ->
             (forall r', r' ∈ stored -> date r' <> date r) -> r ∈ df)
       /\ NoDup (map date df)
       /\ StronglySorted row_le df.
Proof.
  intros stored df. split; [reflexivity|].
  apply (fetch_one_merge_keeps_stored_rows Sample.flaky Sample.flaky
           Sample.flaky Sample.no_mootdx Sample.clock Sample.ymd
           Sample.show_ymd Sample.nat_failure "000001" "20240105"
           "data/000001.csv" "tushare" "A" true 4 (Some (inr stored))
           "20240101" stored df); reflexivity.
Defined.

Lemma fetch_one_attempts_bounded_witness :
  let o := sample_fetch_one Sample.down false None in
  FetchKline.written o = None
  /\ count_events is_kline_call (FetchKline.events o) = 3%nat
  /\ count_events is_attempt_failed (FetchKline.events o) = 3%nat.
Proof.
  intros o.
  apply (proj1 (proj2 (fetch_one_attempts_bounded Sample.down Sample.down
                         Sample.down Sample.no_mootdx Sample.clock Sample.ymd
                         Sample.show_ymd Sample.nat_failure "000001"
                         "20240105" "data/000001.csv" "tushare" "A" false 4
                         None "20240101"))).
  apply list_elem_of_In. vm_compute.
  repeat (first [left; reflexivity | right]).
Defined.

(** ** drop_dup_columns *)

Lemma dict_get_first_occurrences {C : Type} (seen : list string)
    (df : list (string * C)) (name : string) :
  name ∉ seen ->
  dict_get (first_occurrences fst seen df) name = dict_get df name.
Proof.
  revert seen. induction df as [|[k v] rest IH]; intros seen Hname;
    [reflexivity|].
  cbn [first_occurrences fst].
  destruct (bool_decide_reflect (k ∈ seen)) as [Hseen|Hnew].
  - rewrite (IH seen Hname). unfold dict_get. simpl.
    destruct (String.eqb_spec k name) as [->|_]; [contradiction | reflexivity].
  - unfold dict_get in *. simpl.
    destruct (String.eqb_spec k name) as [->|Hne]; [reflexivity|].
    apply IH. rewrite not_elem_of_cons. auto.
Qed.

Lemma first_occurrences_sublist {A K : Type} `{EqDecision K} (key : A -> K)
    (seen : list K) (l : list A) :
  sublist (first_occurrences key seen l) l.
Proof.
  revert seen. induction l as [|a rest IH]; intros seen; simpl.
  - constructor.
  - destruct (bool_decide (key a ∈ seen)).
    + apply sublist_cons, IH.
    + apply sublist_skip, IH.
Qed.

(** X12. [drop_dup_columns] leaves a frame whose column names are
    pairwise different, made of columns of the input in their order; under
    every name it holds the column that the input holds first under that
    name; and applying it twice is the same as applying it once. *)
Theorem drop_dup_columns_keeps_first {C : Type} (df : list (string * C)) :
  NoDup (map fst (FetchKline.drop_dup_columns df))
  /\ sublist (FetchKline.drop_dup_columns df) df
  /\ (forall name,
        dict_get (FetchKline.drop_dup_columns df) name = dict_get df name)
  /\ FetchKline.drop_dup_columns (FetchKline.drop_dup_columns df)
     = FetchKline.drop_dup_columns df.
Proof.
  unfold FetchKline.drop_dup_columns.
  split; [apply first_occurrences_NoDup|].
  split; [apply first_occurrences_sublist|].
  split.
  - intros name. apply dict_get_first_occurrences. intros Hin. inversion Hin.
  - apply first_occurrences_id; [apply first_occurrences_NoDup|].
    intros x _ Hin. inversion Hin.
Qed.

(** ** validate on clean frames *)

Lemma drop_duplicates_from_id (seen : list Timestamp) (df : DataFrame) :
  NoDup (map date df) -> (forall r, r ∈ df -> date r ∉ seen) ->
  FetchKline.drop_duplicates_from seen df = df.
Proof.
  revert seen. induction df as [|x rest IH]; intros seen Hnodup Hnew; simpl;
    [reflexivity|].
  apply NoDup_cons in Hnodup as [Hx Hnodup].
  destruct (bool_decide_reflect (date x ∈ seen)) as [Hseen|_].
  - exfalso. apply (Hnew x); [left | exact Hseen].
  - f_equal. apply IH; [exact Hnodup|].
    intros r Hr. rewrite not_elem_of_cons. split.
    + intros Heq. apply Hx. rewrite <- Heq. apply list_elem_of_fmap. eauto.
    + apply Hnew. right. exact Hr.
Qed.

Lemma sort_values_sorted_id (df : DataFrame) :
  StronglySorted row_le df -> FetchKline.sort_values df = df.
Proof.
  induction 1 as [|x rest Hsorted IH Hall]; simpl; [reflexivity|].
  rewrite IH. destruct rest as [|y rest]; [reflexivity|]. simpl.
  apply Forall_cons in Hall as [Hxy _]. unfold row_le in Hxy.
  rewrite Hxy. reflexivity.
Qed.

Lemma increasing_dates_sorted (df : DataFrame) (ts : list Z) :
  map date df = map TS ts -> StronglySorted Z.lt ts ->
  StronglySorted row_le df /\ NoDup (map date df)
  /\ Forall (fun r => isna (date r) = false) df.
Proof.
  revert ts. induction df as [|x rest IH]; intros ts Hmap Hinc.
  - repeat split; constructor.
  - destruct ts as [|t ts]; [discriminate|]. simpl in Hmap.
    injection Hmap as Hx Hrest.
    apply StronglySorted_inv in Hinc as [Hinc Hlt].
    destruct (IH ts Hrest Hinc) as (Hsorted & Hnodup & Hdated).
    assert (Hlater : forall r, r ∈ rest ->
              exists u, date r = TS u /\ (t < u)%Z).
    { intros r Hr.
      assert (Hin : date r ∈ map TS ts).
      { rewrite <- Hrest. apply list_elem_of_fmap. eauto. }
      apply list_elem_of_fmap in Hin as (u & Hu & Huin).
      rewrite Forall_forall in Hlt. eauto. }
    split; [|split].
    + constructor; [exact Hsorted|]. apply Forall_forall. intros r Hr.
      destruct (Hlater r Hr) as (u & Hu & Htu). unfold row_le.
      rewrite Hx, Hu. simpl. apply Z.leb_le. lia.
    + simpl. constructor; [|exact Hnodup]. intros Hin.
      apply list_elem_of_fmap in Hin as (r & Hdate & Hr).
      destruct (Hlater r Hr) as (u & Hu & Htu). rewrite Hx, Hu in Hdate.
      injection Hdate as ->. lia.
    + constructor; [rewrite Hx; reflexivity | exact Hdated].
Qed.

(** X13. A frame whose dates are all present, strictly increasing and not
    later than today is returned by [validate] exactly as it is: no row is
    dropped or moved. *)
Theorem validate_clean_frame_unchanged (today : Z) (df : DataFrame)
    (ts : list Z) :
  map date df = map TS ts ->
  StronglySorted Z.lt ts ->
  Forall (fun t => (t <= today)%Z) ts ->
  FetchKline.validate today df = inr df.
Proof.
  intros Hmap Hinc Hpast.
  destruct (increasing_dates_sorted df ts Hmap Hinc) as (Hsorted & Hnodup & Hdated).
  unfold FetchKline.validate, FetchKline.drop_duplicates.
  rewrite drop_duplicates_from_id, sort_values_sorted_id; try assumption.
  2:{ intros r _ Hin. inversion Hin. }
  assert (Hna : existsb (fun r => isna (date r)) df = false).
  { apply not_true_is_false. intros Hex.
    apply existsb_elem_of in Hex as (r & Hr & Hisna).
    rewrite Forall_forall in Hdated. rewrite (Hdated r Hr) in Hisna.
    discriminate. }
  assert (Hfut : existsb (fun r => ts_gt (date r) (TS today)) df = false).
  { apply not_true_is_false. intros Hex.
    apply existsb_elem_of in Hex as (r & Hr & Hgt).
    assert (Hin : date r ∈ map TS ts).
    { rewrite <- Hmap. apply list_elem_of_fmap. eauto. }
    apply list_elem_of_fmap in Hin as (t & Ht & Htin).
    rewrite Forall_forall in Hpast. specialize (Hpast t Htin).
    rewrite Ht in Hgt. simpl in Hgt. apply Z.ltb_lt in Hgt. lia. }
  rewrite Hna, Hfut. reflexivity.
Qed.

Lemma validate_clean_frame_unchanged_witness :
  FetchKline.validate 10 [Sample.bar 1; Sample.bar 2; Sample.bar 7]
  = inr [Sample.bar 1; Sample.bar 2; Sample.bar 7].
Proof.
  apply (validate_clean_frame_unchanged 10 _ [1; 2; 7]%Z).
  - reflexivity.
  - repeat constructor.
  - repeat constructor; lia.
Defined.

(** X14. [validate] is idempotent, and a frame it accepts stays accepted,
    with the same result, on every later day. *)
Theorem validate_idempotent (today later : Z) (df out : DataFrame) :
  FetchKline.validate today df = inr out ->
  (today <= later)%Z ->
  FetchKline.validate today out = inr out
  /\ FetchKline.validate later df = inr out.
Proof.
  intros Hout Hlater.
  destruct (validate_inr_clean _ _ _ Hout)
    as (Heq & _ & _ & Hmap & Hinc & Hpast).
  split.
  - apply (validate_clean_frame_unchanged today out (valid_dates out));
      assumption.
  - revert Hout. unfold FetchKline.validate. rewrite <- Heq.
    destruct (existsb (fun r => isna (date r)) out); [discriminate|].
    destruct (existsb (fun r => ts_gt (date r) (TS today)) out) eqn:Hfut;
      [discriminate|].
    intros _.
    assert (Hfut' : existsb (fun r => ts_gt (date r) (TS later)) out = false).
    { apply not_true_is_false. intros Hex.
      apply existsb_elem_of in Hex as (r & Hr & Hgt).
      apply existsb_false_Forall in Hfut. rewrite Forall_forall in Hfut.
      specialize (Hfut r Hr). simpl in Hfut.
      destruct (date r) as [|t]; [discriminate|]. simpl in *.
      apply Z.ltb_lt in Hgt. apply Z.ltb_ge in Hfut. lia. }
    rewrite Hfut'. reflexivity.
Qed.

Lemma validate_idempotent_witness :
  let out := [Sample.bar 1; Sample.bar 2; Sample.bar 3] in
  FetchKline.validate 10 out = inr out
  /\ FetchKline.validate 11 [Sample.bar 3; Sample.bar 1; Sample.bar 3;
                             Sample.bar 2] = inr out.
Proof.
  intros out.
  apply (validate_idempotent 10 11
           [Sample.bar 3; Sample.bar 1; Sample.bar 3; Sample.bar 2] out).
  - reflexivity.
  - lia.
Defined.

(** ** The default trade date, and the pool without a snapshot *)

Lemma latest_date_is_maximum_witness :
  exists m,
    Select.latest_date [Sample.bar 3; Sample.undated; Sample.bar 1]
      [[Sample.undated]; [Sample.bar 7; Sample.bar 2]] = inr (Stamp (TS m))
    /\ (exists df,
          df ∈ [Sample.bar 3; Sample.undated; Sample.bar 1]
               :: [[Sample.undated]; [Sample.bar 7; Sample.bar 2]]
          /\ m ∈ valid_dates df)
    /\ (forall df t,
          df ∈ [Sample.bar 3; Sample.undated; Sample.bar 1]
               :: [[Sample.undated]; [Sample.bar 7; Sample.bar 2]] ->
          t ∈ valid_dates df -> (t <= m)%Z).
Proof.
  apply (latest_date_is_maximum [Sample.bar 3; Sample.undated; Sample.bar 1]
           [[Sample.undated]; [Sample.bar 7; Sample.bar 2]]).
  - repeat constructor; discriminate.
  - discriminate.
Defined.

(** X16. Without a snapshot passed in, [get_constituents] downloads one;
    when the provider fails three times it raises [RuntimeError] after
    three warnings, whether or not an appendix is there: the appendix
    alone never makes a pool. *)
Theorem get_constituents_needs_snapshot
    (stock_zh_a_spot_em : nat -> exn + list FetchKline.spot_row)
    (to_numeric : value -> float) (str_zfill : string -> nat -> string)
    (min_cap max_cap : float) (small_player : value)
    (appendix : option (exn + list string)) :
  (forall j, (1 <= j <= 3)%nat -> exists e, stock_zh_a_spot_em j = inl e) ->
  (exists msg,
     snd (FetchKline.get_constituents stock_zh_a_spot_em to_numeric str_zfill
            min_cap max_cap small_player None appendix)
     = inl (OtherError "RuntimeError" msg))
  /\ Forall2 (failed_attempt stock_zh_a_spot_em)
       (fst (FetchKline.get_constituents stock_zh_a_spot_em to_numeric
               str_zfill min_cap max_cap small_player None appendix))
       [1; 2; 3]%nat.
Proof.
  intros Hdown.
  unfold FetchKline.get_constituents, FetchKline._get_mktcap_ak.
  destruct (snapshot_attempts_spec stock_zh_a_spot_em 1 3)
    as (k & Hk & Hlog & Hres).
  destruct (FetchKline.snapshot_attempts stock_zh_a_spot_em 1 3) as [log r].
  simpl in Hlog, Hres. destruct r as [df|].
  - destruct Hres as [Hlt Hdf].
    destruct (Hdown (S k)) as [e He]; [lia | congruence].
  - subst k. simpl. split; [eauto | exact Hlog].
Qed.

Lemma get_constituents_needs_snapshot_witness :
  (exists msg,
     snd (FetchKline.get_constituents Sample.spot_never Sample.numeric
            Select.zfill (Finite 5000000000) PosInf (VBool true) None
            (Some (inr ["600000"])))
     = inl (OtherError "RuntimeError" msg))
  /\ Forall2 (failed_attempt Sample.spot_never)
       (fst (FetchKline.get_constituents Sample.spot_never Sample.numeric
               Select.zfill (Finite 5000000000) PosInf (VBool true) None
               (Some (inr ["600000"]))))
       [1; 2; 3]%nat.
Proof.
  apply (get_constituents_needs_snapshot Sample.spot_never Sample.numeric
           Select.zfill (Finite 5000000000) PosInf (VBool true)
           (Some (inr ["600000"]))).
  intros j _. eexists. reflexivity.
Defined.
